(** * Follow service of the class-101..106 backends: model and properties

    Embedded sources:
    - the follow controller of the embedded-array variant ([followUser],
      [unfollowUser], [getFollowers], [getFollowing]);
    - the Follow model of the normalized variant (pre-validate hook, unique
      index, statics);
    - the class-106 User model and authentication controller;
    - the follow router with its parameter check, and the error handler of
      the application.

    Conventions of the model:
    - A stored identifier is the hexadecimal string that
      [ObjectId.toString()] returns. A request carries strings: a query by
      identifier and a push onto a reference array cast the string to an
      identifier, while the controller's own comparisons ([===],
      [includes], [id.toString() !== targetUserId]) are on the strings as
      they were sent. Two spellings of one identifier therefore name the
      same document and still compare as different.
    - Strings are sequences of UTF-8 bytes; [trim] and the class [\S] know
      the white space of the language (the Unicode spaces included),
      [toLowerCase] maps the letters A to Z only.
    - The timestamps [createdAt] and [updatedAt] of the schemas are left
      out of the documents.
    - The store is one users collection. A session carries one transaction
      with a working copy of the collection: reads and writes made with the
      session go to the copy, a commit installs it, an abort or a
      transaction that is never committed drops it.
    - Every store operation of a request may fail; which ones do is an
      input of the run.
    - Library calls ([ObjectId.isValid] and the cast of a string to an
      identifier, bcrypt, jsonwebtoken) are parameters, given as classes. *)

From Stdlib Require Import String Ascii List Bool Arith Lia.
From stdpp Require Import base option strings gmap list.

Open Scope string_scope.
Open Scope list_scope.

Abbreviation ObjectId := string (only parsing).

(** ** JavaScript values that cross the HTTP boundary *)

Module Js.

#[warnings="-register-all"]
Inductive Json : Type :=
| JNull
| JBool (b : bool)
| JNum (n : nat)
| JStr (s : string)
| JArr (items : list Json)
| JObj (fields : list (string * Json)).

(** Own enumerable property names of an object, in insertion order. *)
Definition keys (j : Json) : list string :=
  match j with
  | JObj fields => map fst fields
  | _ => []
  end.

(** Property read [obj.name]; [undefined] is [None]. *)
Fixpoint assoc (name : string) (fields : list (string * Json)) : option Json :=
  match fields with
  | [] => None
  | (k, v) :: rest => if String.eqb k name then Some v else assoc name rest
  end.

Definition prop (name : string) (j : Json) : option Json :=
  match j with
  | JObj fields => assoc name fields
  | _ => None
  end.

(** [!x] for the request fields the controllers test: a missing field and
    the empty string are falsy. *)
Definition falsy (x : option string) : bool :=
  match x with
  | None => true
  | Some s => String.eqb s ""
  end.

(** *** Strings (UTF-8 bytes) *)

(** A byte that continues a character. *)
Definition continuation (c : ascii) : bool :=
  let n := nat_of_ascii c in Nat.leb 128 n && Nat.leb n 191.

(** The characters of a byte sequence: a byte with the continuation bytes
    that follow it. *)
Fixpoint chars (l : list ascii) : list (list ascii) :=
  match l with
  | [] => []
  | c :: rest =>
      match chars rest with
      | (d :: ds) :: more =>
          if continuation d then (c :: d :: ds) :: more
          else [c] :: (d :: ds) :: more
      | others => [c] :: others
      end
  end.

(** White space and line terminators of the language: U+0009 to U+000D,
    U+0020, U+00A0, U+1680, U+2000 to U+200A, U+2028, U+2029, U+202F,
    U+205F, U+3000 and U+FEFF, in their UTF-8 form. *)
Definition is_space (ch : list ascii) : bool :=
  match map nat_of_ascii ch with
  | [n] => Nat.eqb n 32 || (Nat.leb 9 n && Nat.leb n 13)
  | [a; b] => Nat.eqb a 194 && Nat.eqb b 160
  | [a; b; c] =>
      (Nat.eqb a 225 && Nat.eqb b 154 && Nat.eqb c 128)
      || (Nat.eqb a 226 && Nat.eqb b 128
          && ((Nat.leb 128 c && Nat.leb c 138) || Nat.eqb c 168 || Nat.eqb c 169
              || Nat.eqb c 175))
      || (Nat.eqb a 226 && Nat.eqb b 129 && Nat.eqb c 159)
      || (Nat.eqb a 227 && Nat.eqb b 128 && Nat.eqb c 128)
      || (Nat.eqb a 239 && Nat.eqb b 187 && Nat.eqb c 191)
  | _ => false
  end.

Fixpoint dropSpaces (l : list (list ascii)) : list (list ascii) :=
  match l with
  | ch :: rest => if is_space ch then dropSpaces rest else l
  | [] => []
  end.

(** [s.length]: UTF-16 code units, two for a character of four bytes. *)
Definition str_length (s : string) : nat :=
  list_sum (map (λ ch, if Nat.eqb (length ch) 4 then 2 else 1)
                (chars (list_ascii_of_string s))).

(** [s.trim()] *)
Definition trim (s : string) : string :=
  string_of_list_ascii
    (concat (rev (dropSpaces (rev (dropSpaces (chars (list_ascii_of_string s))))))).

Definition lower (c : ascii) : ascii :=
  let n := nat_of_ascii c in
  if Nat.leb 65 n && Nat.leb n 90 then ascii_of_nat (n + 32) else c.

(** [s.toLowerCase()] *)
Definition toLowerCase (s : string) : string :=
  string_of_list_ascii (map lower (list_ascii_of_string s)).

Fixpoint dot_then_some (l : list ascii) : bool :=
  match l with
  | [] => false
  | c :: rest =>
      (Ascii.eqb c "."%char && negb (Nat.eqb (length rest) 0)) || dot_then_some rest
  end.

Fixpoint at_then_domain (l : list ascii) : bool :=
  match l with
  | [] => false
  | c :: rest =>
      (Ascii.eqb c "@"%char
       && match rest with [] => false | _ :: rest' => dot_then_some rest' end)
      || at_then_domain rest
  end.

(** [/^\S+@\S+\.\S+$/.test(s)] *)
Definition email_regex_test (s : string) : bool :=
  let l := list_ascii_of_string s in
  forallb (λ ch, negb (is_space ch)) (chars l)
  && match l with [] => false | _ :: rest => at_then_domain rest end.

End Js.
Export Js.

(** ** User documents *)

Module UserModel.

Record Profile : Type := mkProfile { imageUrl : string }.

(** Modelled from the spec: the declaration of the two reference arrays
    [followers] and [following] of the embedded-array variant is not in the
    schema file at hand; the remaining fields are those of UserSchema. *)
Record User : Type := mkUser {
  username : string;
  email : string;
  password : string;
  bio : string;
  profile : Profile;
  followers : list ObjectId;
  following : list ObjectId
}.

(** [password: { select: false }] hides the path from queries by default. *)
Definition UserSchema_password_select : bool := false.

Definition default_imageUrl : string :=
  "https://ik.imagekit.io/Bharat/default-user-profile-icon.avif".

Definition set_followers (l : list ObjectId) (u : User) : User :=
  mkUser (username u) (email u) (password u) (bio u) (profile u) l (following u).

Definition set_following (l : list ObjectId) (u : User) : User :=
  mkUser (username u) (email u) (password u) (bio u) (profile u) (followers u) l.

Definition set_password (p : string) (u : User) : User :=
  mkUser (username u) (email u) p (bio u) (profile u) (followers u) (following u).

(** All stored paths of a document as a plain object, the shape
    [toObject()] and [lean()] start from. *)
Definition toObject (id : ObjectId) (u : User) : list (string * Json) :=
  [ ("_id", JStr id);
    ("username", JStr (username u));
    ("email", JStr (email u));
    ("password", JStr (password u));
    ("bio", JStr (bio u));
    ("profile", JObj [("imageUrl", JStr (imageUrl (profile u)))]);
    ("followers", JArr (map JStr (followers u)));
    ("following", JArr (map JStr (following u))) ].

(** Inclusive projection [select("a b c")]: the named paths, and [_id],
    which an inclusive projection keeps unless it is excluded by name. *)
Definition project (paths : list string) (id : ObjectId) (u : User) : Json :=
  JObj (filter (λ kv, bool_decide (kv.1 = "_id" ∨ kv.1 ∈ paths)) (toObject id u)).

End UserModel.
Export UserModel.

(** ** The store: a users collection behind a session with one transaction *)

Module Mongo.

(** The driver: [mongoose.Types.ObjectId.isValid], which the controllers
    call, and the cast of a string to an identifier, which queries by
    identifier and reference arrays apply to what they are given. The cast
    returns the identifier in the spelling of [toString()], or nothing when
    the string is no identifier. *)
Class Driver : Type := {
  ObjectId_isValid : string → bool;
  castObjectId : string → option ObjectId
}.

(** Store operations of one request, by the place that issues them. Each
    may fail (the store is unreachable, a write conflicts, ...). *)
Inductive StoreOp : Type :=
| OpStartSession
| OpStartTransaction
| OpFindMe
| OpFindTarget
| OpSaveMe
| OpSaveTarget
| OpCommit
| OpAbort
| OpPopulate
| OpFindOne
| OpInsert.

Definition Faults : Type := StoreOp → bool.

Definition no_faults : Faults := λ _, false.

Inductive Error : Type :=
| StoreError (op : StoreOp)
| ValidationError (msg : string)
| DuplicateKey
| CastError (value path : string)
| JsError (msg : string).

Definition quoted (s : string) : string :=
  String (ascii_of_nat 34) s +:+ String (ascii_of_nat 34) EmptyString.

(** [error.message] *)
Definition message (e : Error) : string :=
  match e with
  | StoreError _ => "store operation failed"
  | ValidationError msg => msg
  | DuplicateKey => "E11000 duplicate key error"
  | CastError value path =>
      "Cast to ObjectId failed for value " +:+ quoted value
      +:+ " (type string) at path " +:+ quoted path
  | JsError msg => msg
  end.

(** What an observer of the request sees, in order. *)
Inductive Event : Type :=
| EvStartSession
| EvStartTransaction
| EvFindById (id : string)
| EvPopulate
| EvFindOne
| EvInsert (id : ObjectId)
| EvSave (id : ObjectId)
| EvCommit
| EvAbort
| EvEndSession
| EvCookie (name value : string)
| EvClearCookie (name : string)
| EvRespond (status : nat)
| EvNext (e : Error).

Inductive Txn : Type :=
| TxnNone
| TxnOpen (work : gmap string User)
| TxnCommitted
| TxnAborted.

Record World : Type := mkWorld {
  faults : Faults;
  db : gmap string User;
  txn : Txn;
  sessionEnded : bool;
  log : list Event
}.

Definition emit (ev : Event) (w : World) : World :=
  mkWorld (faults w) (db w) (txn w) (sessionEnded w) (log w ++ [ev]).

Definition set_txn (t : Txn) (w : World) : World :=
  mkWorld (faults w) (db w) t (sessionEnded w) (log w).

Definition set_db (d : gmap string User) (w : World) : World :=
  mkWorld (faults w) d (txn w) (sessionEnded w) (log w).

Definition set_ended (w : World) : World :=
  mkWorld (faults w) (db w) (txn w) true (log w).

(** The collection a read or write with [.session(session)] works on: the
    transaction's working copy while it is open, the committed collection
    otherwise. *)
Definition view (w : World) : gmap string User :=
  match txn w with
  | TxnOpen work => work
  | _ => db w
  end.

Inductive Result (A : Type) : Type :=
| Ok (a : A)
| Throw (e : Error).
Arguments Ok {A} a.
Arguments Throw {A} e.

(** Asynchronous code of a handler: state passing with exceptions. *)
Definition M (A : Type) : Type := World → Result A * World.

Definition ret {A} (a : A) : M A := λ w, (Ok a, w).

Definition throw {A} (e : Error) : M A := λ w, (Throw e, w).

Definition bind {A B} (m : M A) (k : A → M B) : M B :=
  λ w, match m w with
       | (Ok a, w') => k a w'
       | (Throw e, w') => (Throw e, w')
       end.

Definition try_catch {A} (body : M A) (handler : Error → M A) : M A :=
  λ w, match body w with
       | (Ok a, w') => (Ok a, w')
       | (Throw e, w') => handler e w'
       end.

#[global] Instance M_ret : MRet M := @ret.
#[global] Instance M_bind : MBind M := λ A B k m, bind m k.

(** A store call: it is observed, then fails or takes effect. *)
Definition storeCall {A} (op : StoreOp) (ev : Event) (run : World → A * World) : M A :=
  λ w, let w1 := emit ev w in
       if faults w op then (Throw (StoreError op), w1)
       else let (a, w2) := run w1 in (Ok a, w2).

Definition startSession : M unit :=
  storeCall OpStartSession EvStartSession (λ w, (tt, w)).

Definition startTransaction : M unit :=
  storeCall OpStartTransaction EvStartTransaction
    (λ w, (tt, set_txn (TxnOpen (db w)) w)).

Definition commitTransaction : M unit :=
  storeCall OpCommit EvCommit
    (λ w, (tt, set_txn TxnCommitted (set_db (view w) w))).

Definition abortTransaction : M unit :=
  storeCall OpAbort EvAbort (λ w, (tt, set_txn TxnAborted w)).

Definition endSession : M unit :=
  λ w, (Ok tt, set_ended (emit EvEndSession w)).

(** *** Documents in memory *)

Inductive Path : Type := PFollowers | PFollowing.

(** A hydrated document: its identity, its current field values and the
    paths changed since it was loaded. *)
Record Doc : Type := mkDoc {
  _id : ObjectId;
  fields : User;
  password_selected : bool;
  modified : list Path
}.

(** [doc.password]: [undefined] when the query did not load the path. *)
Definition doc_password (d : Doc) : option string :=
  if password_selected d then Some (password (fields d)) else None.

(** A query loads the password path only when the schema selects it or
    the query asks for it with [select("+password")]. *)
Definition hydrate (plus_password : bool) (id : ObjectId) (u : User) : Doc :=
  mkDoc id u (UserSchema_password_select || plus_password) [].

Section Casting.
Context `{Driver}.

(** [User.findById(id)]: the string is cast to an identifier; a string
    that is none rejects the query before the store is asked. *)
Definition findById (op : StoreOp) (id : string) : M (option Doc) :=
  match castObjectId id with
  | None => throw (CastError id "_id")
  | Some _id =>
      storeCall op (EvFindById _id)
        (λ w, (hydrate false _id <$> view w !! _id, w))
  end.

(** [doc.following.push(x)]: the array casts what is pushed. *)
Definition push_following (x : string) (d : Doc) : M Doc :=
  match castObjectId x with
  | None => throw (CastError x "following")
  | Some id =>
      ret (mkDoc (_id d) (set_following (following (fields d) ++ [id]) (fields d))
                 (password_selected d) (PFollowing :: modified d))
  end.

(** [doc.followers.push(x)] *)
Definition push_followers (x : string) (d : Doc) : M Doc :=
  match castObjectId x with
  | None => throw (CastError x "followers")
  | Some id =>
      ret (mkDoc (_id d) (set_followers (followers (fields d) ++ [id]) (fields d))
                 (password_selected d) (PFollowers :: modified d))
  end.

End Casting.

(** [User.findOne(filter)]: some document that passes the filter. *)
Definition findOne (filter : User → bool) : M (option Doc) :=
  storeCall OpFindOne EvFindOne
    (λ w, ((λ kv, hydrate false kv.1 kv.2)
             <$> head (List.filter (λ kv, filter kv.2) (map_to_list (view w))), w)).

(** [doc.following = l] *)
Definition assign_following (l : list ObjectId) (d : Doc) : Doc :=
  mkDoc (_id d) (set_following l (fields d)) (password_selected d)
        (PFollowing :: modified d).

(** [doc.followers = l] *)
Definition assign_followers (l : list ObjectId) (d : Doc) : Doc :=
  mkDoc (_id d) (set_followers l (fields d)) (password_selected d)
        (PFollowers :: modified d).

Definition write_path (d : Doc) (p : Path) (stored : User) : User :=
  match p with
  | PFollowers => set_followers (followers (fields d)) stored
  | PFollowing => set_following (following (fields d)) stored
  end.

(** [doc.save({ session })] sends the modified paths only; the other
    paths of the stored document keep their stored value. *)
Definition save (op : StoreOp) (d : Doc) : M unit :=
  storeCall op (EvSave (_id d))
    (λ w, (tt, match txn w with
               | TxnOpen work =>
                   set_txn (TxnOpen (alter (λ u, fold_right (write_path d) u (modified d)) (_id d) work)) w
               | _ =>
                   set_db (alter (λ u, fold_right (write_path d) u (modified d)) (_id d) (db w)) w
               end)).

(** *** Outcome of a handler *)

Inductive Outcome : Type :=
| Responded (status : nat) (body : Json)
| NextError (e : Error)
| Rejected (e : Error).

(** [res.status(code).json(body)] *)
Definition res_json (code : nat) (body : list (string * Json)) : M Outcome :=
  λ w, (Ok (Responded code (JObj body)), emit (EvRespond code) w).

(** [next(error)] *)
Definition next (e : Error) : M Outcome :=
  λ w, (Ok (NextError e), emit (EvNext e) w).

Record Run : Type := mkRun {
  outcome : Outcome;
  store : gmap string User;
  session : Txn;
  ended : bool;
  trace : list Event
}.

(** Runs a handler against the committed collection. An exception that
    leaves the handler is a rejected promise. *)
Definition run (h : M Outcome) (f : Faults) (users : gmap string User) : Run :=
  match h (mkWorld f users TxnNone false []) with
  | (Ok o, w) => mkRun o (db w) (txn w) (sessionEnded w) (log w)
  | (Throw e, w) => mkRun (Rejected e) (db w) (txn w) (sessionEnded w) (log w)
  end.

Definition status_of (o : Outcome) : option nat :=
  match o with
  | Responded code _ => Some code
  | _ => None
  end.

End Mongo.
Export Mongo.

(** ** Follow controller (embedded-array variant) *)

Module FollowController.

Section Controller.
Context `{Driver}.

Record Request : Type := mkRequest {
  user_id : string;       (* req.user.id, set by the auth middleware *)
  params_userId : string  (* req.params.userId *)
}.

Definition isValidObjectId (id : string) : bool := ObjectId_isValid id.

(** [array.includes(id)] on an array of identifiers: the string is
    compared with the [toString()] of each element. *)
Definition includes (id : string) (l : list ObjectId) : bool :=
  existsb (String.eqb id) l.

(** [array.filter((id) => id.toString() !== other)] *)
Definition without (other : string) (l : list ObjectId) : list ObjectId :=
  List.filter (λ id, negb (String.eqb id other)) l.

Definition followUser (req : Request) : M Outcome :=
  startSession;;
  startTransaction;;
  try_catch
    (let myId := user_id req in
     let targetUserId := params_userId req in
     if negb (isValidObjectId targetUserId) then
       res_json 400 [("success", JBool false); ("message", JStr "Invalid user ID")]
     else if String.eqb myId targetUserId then
       res_json 400 [("success", JBool false); ("message", JStr "You cannot follow yourself")]
     else
       me ← findById OpFindMe myId;
       targetUser ← findById OpFindTarget targetUserId;
       match me, targetUser with
       | Some me, Some targetUser =>
           if includes targetUserId (following (fields me)) then
             res_json 409 [("success", JBool false); ("message", JStr "Already following this user")]
           else
             me ← push_following targetUserId me;
             targetUser ← push_followers myId targetUser;
             save OpSaveMe me;;
             save OpSaveTarget targetUser;;
             commitTransaction;;
             endSession;;
             res_json 200 [("success", JBool true); ("message", JStr "User followed successfully")]
       | _, _ =>
           res_json 404 [("success", JBool false); ("message", JStr "User not found")]
       end)
    (λ error,
       abortTransaction;;
       endSession;;
       next error).

Definition unfollowUser (req : Request) : M Outcome :=
  startSession;;
  startTransaction;;
  try_catch
    (let myId := user_id req in
     let targetUserId := params_userId req in
     if negb (isValidObjectId targetUserId) then
       res_json 400 [("success", JBool false); ("message", JStr "Invalid user ID")]
     else
       me ← findById OpFindMe myId;
       targetUser ← findById OpFindTarget targetUserId;
       match me, targetUser with
       | Some me, Some targetUser =>
           let me := assign_following (without targetUserId (following (fields me))) me in
           let targetUser := assign_followers (without myId (followers (fields targetUser))) targetUser in
           save OpSaveMe me;;
           save OpSaveTarget targetUser;;
           commitTransaction;;
           endSession;;
           res_json 200 [("success", JBool true); ("message", JStr "User unfollowed successfully")]
       | _, _ =>
           res_json 404 [("success", JBool false); ("message", JStr "User not found")]
       end)
    (λ error,
       abortTransaction;;
       endSession;;
       next error).

(** [User.findById(id).populate(path, select).lean()]: the references of
    the path are replaced, in array order, by the projection of the
    documents they name; a reference that names no document is dropped. *)
Definition populate (select : list string) (refs : list ObjectId) : M (list Json) :=
  storeCall OpPopulate EvPopulate
    (λ w, (omap (λ id, project select id <$> view w !! id) refs, w)).

Definition getFollowers (userId : string) : M Outcome :=
  try_catch
    (if negb (isValidObjectId userId) then
       res_json 400 [("success", JBool false); ("message", JStr "Invalid user ID")]
     else
       user ← findById OpFindTarget userId;
       match user with
       | None =>
           res_json 404 [("success", JBool false); ("message", JStr "User not found")]
       | Some user =>
           followers ← populate ["username"; "email"; "profile"] (followers (fields user));
           res_json 200 [("success", JBool true);
                         ("followers", JArr followers);
                         ("total", JNum (length followers))]
       end)
    (λ error, next error).

Definition getFollowing (userId : string) : M Outcome :=
  try_catch
    (if negb (isValidObjectId userId) then
       res_json 400 [("success", JBool false); ("message", JStr "Invalid user ID")]
     else
       user ← findById OpFindTarget userId;
       match user with
       | None =>
           res_json 404 [("success", JBool false); ("message", JStr "User not found")]
       | Some user =>
           following ← populate ["username"; "email"; "profile"] (following (fields user));
           res_json 200 [("success", JBool true);
                         ("following", JArr following);
                         ("total", JNum (length following))]
       end)
    (λ error, next error).

End Controller.

End FollowController.
Export FollowController.

(** ** Follow model (normalized variant): one document per edge *)

Module FollowModel.

(** A Follow document as handed to [create]; a missing argument leaves
    the path [undefined]. The timestamps of the schema play no part in the
    model. *)
Record Follow : Type := mkFollow {
  follower : option ObjectId;
  following : option ObjectId
}.

(** The follows collection, in insertion order. *)
Definition Follows : Type := list (ObjectId * ObjectId).

Definition same_edge (a b : ObjectId) (row : ObjectId * ObjectId) : bool :=
  String.eqb row.1 a && String.eqb row.2 b.

(** [followSchema.pre("validate", ...)] *)
Definition pre_validate (this : Follow) : option Error :=
  match follower this, following this with
  | Some a, Some b =>
      if String.eqb a b then Some (JsError "User cannot follow themselves")
      else None
  | _, _ => None
  end.

(** The [required] validators of the two paths. *)
Definition validate (this : Follow) : option Error :=
  match follower this, following this with
  | None, _ => Some (ValidationError "Follower is required")
  | _, None => Some (ValidationError "Following user is required")
  | Some _, Some _ => None
  end.

(** [this.create(doc)]: the pre-validate hook, validation, then the
    insert, which the unique index on (follower, following) guards. *)
Definition create (this : Follow) (rows : Follows) : Result (ObjectId * ObjectId) * Follows :=
  match pre_validate this with
  | Some e => (Throw e, rows)
  | None =>
      match validate this with
      | Some e => (Throw e, rows)
      | None =>
          match follower this, following this with
          | Some a, Some b =>
              if existsb (same_edge a b) rows then (Throw DuplicateKey, rows)
              else (Ok (a, b), rows ++ [(a, b)])
          | _, _ => (Throw (ValidationError "Follow validation failed"), rows)
          end
      end
  end.

(** [followSchema.statics.followUser] *)
Definition followUser (followerId followingId : option ObjectId) (rows : Follows)
  : Result (ObjectId * ObjectId) * Follows :=
  create (mkFollow followerId followingId) rows.

Fixpoint remove_first (a b : ObjectId) (rows : Follows) : nat * Follows :=
  match rows with
  | [] => (0, [])
  | row :: rest =>
      if same_edge a b row then (1, rest)
      else let (n, rest') := remove_first a b rest in (n, row :: rest')
  end.

(** [followSchema.statics.unfollowUser]: [deleteOne] removes the first
    matching document and reports [deletedCount]. *)
Definition unfollowUser (followerId followingId : ObjectId) (rows : Follows)
  : nat * Follows :=
  remove_first followerId followingId rows.

(** [followSchema.statics.countFollowers] *)
Definition countFollowers (userId : ObjectId) (rows : Follows) : nat :=
  length (List.filter (λ row, String.eqb row.2 userId) rows).

(** [followSchema.statics.countFollowing] *)
Definition countFollowing (userId : ObjectId) (rows : Follows) : nat :=
  length (List.filter (λ row, String.eqb row.1 userId) rows).

(** [followSchema.statics.isFollowing] *)
Definition isFollowing (followerId followingId : ObjectId) (rows : Follows) : bool :=
  existsb (same_edge followerId followingId) rows.

(** Number of documents that record the edge. *)
Definition edges (a b : ObjectId) (rows : Follows) : nat :=
  length (List.filter (same_edge a b) rows).

End FollowModel.

(** ** Authentication controller (class-106) *)

Module Auth.

(** The password-hashing library. [hash data salt] is the digest,
    [genSalt rounds entropy] a fresh salt, [verify data digest] the
    comparison of a candidate with a stored digest. *)
Class Bcrypt : Type := {
  hash : string → string → string;
  genSalt : nat → nat → string;
  verify : string → string → bool
}.

(** The token library: [sign payload], or nothing when signing throws. *)
Class Jwt : Type := { sign : ObjectId → option string }.

Section Controller.
Context `{Bcrypt} `{Jwt}.

(** Randomness and fresh names one request consumes. *)
Record Entropy : Type := mkEntropy {
  controller_salt : nat;   (* bcrypt.hash(password, 12) *)
  hook_salt : nat;         (* bcrypt.genSalt(10) in the pre-save hook *)
  fresh_id : ObjectId      (* the _id of a created document *)
}.

(** [bcrypt.compare(data, hash)] rejects when an argument is missing. *)
Definition bcrypt_compare (data : string) (digest : option string) : M bool :=
  match digest with
  | None => throw (JsError "data and hash arguments required")
  | Some d => ret (verify data d)
  end.

Definition createToken (userId : ObjectId) : M string :=
  match sign userId with
  | Some token => ret token
  | None => throw (JsError "secretOrPrivateKey must have a value")
  end.

(** [res.cookie(name, value, cookieOptions)] *)
Definition cookie (name value : string) : M unit :=
  λ w, (Ok tt, emit (EvCookie name value) w).

(** [res.clearCookie(name, cookieOptions)] *)
Definition clearCookie (name : string) : M unit :=
  λ w, (Ok tt, emit (EvClearCookie name) w).

(** *** User schema: setters, validators, pre-save hook *)

Definition within (lo hi : nat) (s : string) : bool :=
  Nat.leb lo (str_length s) && Nat.leb (str_length s) hi.

(** Setters of the schema paths ([trim], [lowercase]); they run on the
    values of a new document and on the values of a query filter. *)
Definition set_username (s : string) : string := trim s.

Definition set_email (s : string) : string := trim (toLowerCase s).

Definition cast (u : User) : User :=
  mkUser (set_username (username u)) (set_email (email u)) (password u) (bio u)
         (mkProfile (trim (imageUrl (profile u)))) (followers u) (following u).

Definition UserSchema_validate (u : User) : option Error :=
  if String.eqb (username u) "" then Some (ValidationError "Username is required")
  else if negb (within 3 30 (username u)) then Some (ValidationError "username length")
  else if String.eqb (email u) "" then Some (ValidationError "Email is required")
  else if negb (email_regex_test (email u)) then Some (ValidationError "Please use a valid email address")
  else if String.eqb (password u) "" then Some (ValidationError "Password is required")
  else if Nat.ltb (str_length (password u)) 6 then Some (ValidationError "password length")
  else if Nat.ltb 500 (str_length (bio u)) then Some (ValidationError "bio length")
  else None.

(** [UserSchema.pre("save", ...)]; the password of a new document counts
    as modified. *)
Definition pre_save (isModified_password : bool) (rnd : Entropy) (u : User) : User :=
  if negb isModified_password then u
  else
    let salt := genSalt 10 (hook_salt rnd) in
    set_password (hash (password u) salt) u.

Definition taken (u : User) (users : gmap string User) : bool :=
  existsb (λ kv, String.eqb (username kv.2) (username u)
                 || String.eqb (email kv.2) (email u))
          (map_to_list users).

(** [User.create(fields)]: cast, validate, run the pre-save hook, insert
    under the unique indexes. *)
Definition create (rnd : Entropy) (u : User) : M Doc :=
  let u := cast u in
  match UserSchema_validate u with
  | Some e => throw e
  | None =>
      let u := pre_save true rnd u in
      r ← storeCall OpInsert (EvInsert (fresh_id rnd))
            (λ w, match db w !! fresh_id rnd with
                  | Some _ => (false, w)
                  | None =>
                      if taken u (db w) then (false, w)
                      else (true, set_db (<[fresh_id rnd := u]> (db w)) w)
                  end);
      if (r : bool) then ret (mkDoc (fresh_id rnd) u true []) else throw DuplicateKey
  end.

Record RegisterBody : Type := mkRegisterBody {
  reg_username : option string;
  reg_email : option string;
  reg_password : option string;
  reg_bio : option string;
  reg_imageUrl : option string
}.

Record LoginBody : Type := mkLoginBody {
  identifier : option string;
  login_password : option string
}.

Definition user_json (d : Doc) : Json :=
  JObj [ ("id", JStr (_id d));
         ("username", JStr (username (fields d)));
         ("email", JStr (email (fields d)));
         ("bio", JStr (bio (fields d)));
         ("profile", JObj [("imageUrl", JStr (imageUrl (profile (fields d))))]) ].

Definition RegisterController (body : RegisterBody) (rnd : Entropy) : M Outcome :=
  try_catch
    (if falsy (reg_username body) || falsy (reg_email body) || falsy (reg_password body) then
       res_json 400 [("message", JStr "Username, email and password are required")]
     else
       let username := default "" (reg_username body) in
       let email := default "" (reg_email body) in
       let password := default "" (reg_password body) in
       existingUser ← findOne (λ u, String.eqb (UserModel.email u) (set_email email)
                                    || String.eqb (UserModel.username u)
                                                  (set_username username));
       match existingUser with
       | Some existingUser =>
           res_json 409
             [("message",
               JStr (if String.eqb (UserModel.email (fields existingUser)) email
                     then "Email already registered"
                     else "Username already taken"))]
       | None =>
           let hashedPassword := hash password (genSalt 12 (controller_salt rnd)) in
           newUser ← create rnd
             (mkUser username email hashedPassword
                (default "" (reg_bio body))
                (mkProfile (if falsy (reg_imageUrl body) then default_imageUrl
                            else default default_imageUrl (reg_imageUrl body)))
                [] []);
           token ← createToken (_id newUser);
           cookie "token" token;;
           res_json 201 [("message", JStr "User registered successfully");
                         ("user", user_json newUser)]
       end)
    (λ error,
       res_json 500 [("message", JStr "Registration failed");
                     ("error", JStr (message error))]).

Definition LoginController (body : LoginBody) : M Outcome :=
  try_catch
    (if falsy (identifier body) || falsy (login_password body) then
       res_json 400 [("message", JStr "Email/Username and password required")]
     else
       let identifier := default "" (identifier body) in
       let password := default "" (login_password body) in
       user ← findOne (λ u, String.eqb (UserModel.email u) (set_email identifier)
                            || String.eqb (UserModel.username u)
                                          (set_username identifier));
       match user with
       | None => res_json 401 [("message", JStr "Invalid credentials")]
       | Some user =>
           isMatch ← bcrypt_compare password (doc_password user);
           if negb isMatch then
             res_json 401 [("message", JStr "Invalid credentials")]
           else
             token ← createToken (_id user);
             cookie "token" token;;
             res_json 200 [("message", JStr "Login successful");
                           ("user", user_json user)]
       end)
    (λ error,
       res_json 500 [("message", JStr "Login failed");
                     ("error", JStr (message error))]).

Definition LogoutController : M Outcome :=
  clearCookie "token";;
  res_json 200 [("message", JStr "Logged out successfully")].

End Controller.


End Auth.

(** ** Graph state of the embedded-array variant *)

Module Graph.

(** Number of times an identifier occurs in a reference array. *)
Definition occurrences (id : ObjectId) (l : list ObjectId) : nat :=
  length (List.filter (String.eqb id) l).

(** Entries of both arrays are unique per user. *)
Definition duplicate_free (users : gmap string User) : Prop :=
  ∀ a ua, users !! a = Some ua → NoDup (followers ua) ∧ NoDup (following ua).

(** The two arrays record the same edges. *)
Definition lockstep (users : gmap string User) : Prop :=
  ∀ a b ua ub, users !! a = Some ua → users !! b = Some ub →
    (a ∈ followers ub ↔ b ∈ following ua).

(** The collection after the edge from [me] to [target] is recorded on
    both documents. *)
Definition followed (me target : ObjectId) (users : gmap string User)
  : gmap string User :=
  alter (λ u, set_followers (followers u ++ [me]) u) target
    (alter (λ u, set_following (following u ++ [target]) u) me users).

(** The collection after the caller [A], who sent the strings [me] and
    [target], has unfollowed the user [B]: the filters compare with the
    strings. *)
Definition unfollowed (me target : string) (A B : ObjectId) (users : gmap string User)
  : gmap string User :=
  alter (λ u, set_followers (without me (followers u)) u) B
    (alter (λ u, set_following (without target (following u)) u) A users).

(** Two collections that differ at most in stored passwords. *)
Definition same_public (users users' : gmap string User) : Prop :=
  ∀ id, set_password "" <$> users !! id = set_password "" <$> users' !! id.

(** The summaries that populating an array of references yields. *)
Definition summaries (users : gmap string User) (refs : list ObjectId) : list Json :=
  omap (λ id, project ["username"; "email"; "profile"] id <$> users !! id) refs.

(** The array a list endpoint returned, and the identities in it. *)
Definition listed (field : string) (o : Outcome) : list Json :=
  match o with
  | Responded _ body =>
      match prop field body with
      | Some (JArr items) => items
      | _ => []
      end
  | _ => []
  end.

Definition summary_id (j : Json) : option ObjectId :=
  match prop "_id" j with
  | Some (JStr id) => Some id
  | _ => None
  end.

Definition is_read (ev : Event) : bool :=
  match ev with
  | EvFindById _ => true
  | _ => false
  end.

End Graph.
Export Graph.

(** ** The scenario of the specification: users alice and bob *)

Module Scenario.

Definition is_hex (c : ascii) : bool :=
  let n := nat_of_ascii c in
  (Nat.leb 48 n && Nat.leb n 57) || (Nat.leb 65 n && Nat.leb n 70)
  || (Nat.leb 97 n && Nat.leb n 102).

Definition is_hex24 (s : string) : bool :=
  Nat.eqb (String.length s) 24 && forallb is_hex (list_ascii_of_string s).

(** A driver for identifiers written as 24 hexadecimal digits in either
    case; [toString()] writes them in lower case. *)
Definition hex24 : Driver :=
  {| ObjectId_isValid := is_hex24;
     castObjectId := λ s, if is_hex24 s then Some (toLowerCase s) else None |}.

Definition idA : ObjectId := "65a000000000000000000001".
Definition idB : ObjectId := "65a000000000000000000002".
Definition idC : ObjectId := "65a000000000000000000003".

(** The identifiers of alice and bob as a client may also write them. *)
Definition idA_upper : string := "65A000000000000000000001".
Definition idB_upper : string := "65A000000000000000000002".

Definition person (name : string) (followers following : list ObjectId) : User :=
  mkUser name (name +:+ "@example.com") ("$2b$10$digest-of-" +:+ name) ""
         (mkProfile default_imageUrl) followers following.

Definition alice : User := person "alice" [] [].
Definition bob : User := person "bob" [] [].

(** Nobody follows anybody. *)
Definition strangers : gmap string User :=
  <[idA := alice]> (<[idB := bob]> ∅).

(** alice follows bob, and so does carol. *)
Definition friends : gmap string User :=
  <[idA := person "alice" [] [idB]]>
    (<[idB := person "bob" [idC; idA] []]>
       (<[idC := person "carol" [] [idB]]> ∅)).

(** bob lists alice as a follower, alice does not list bob. *)
Definition skewed : gmap string User :=
  <[idA := person "alice" [] []]> (<[idB := person "bob" [idA] []]> ∅).

(** Both arrays hold the edge twice. *)
Definition doubled : gmap string User :=
  <[idA := person "alice" [] [idB; idB]]>
    (<[idB := person "bob" [idA; idC; idA] []]> ∅).

(** A digest for examples: a marker in front of the data. *)
Definition marker_bcrypt : Auth.Bcrypt :=
  {| Auth.hash := λ data _, String "#" data;
     Auth.genSalt := λ rounds entropy, "$2b$";
     Auth.verify := λ data digest, String.eqb digest (String "#" data) |}.

Definition plain_jwt : Auth.Jwt := {| Auth.sign := λ id, Some ("jwt." +:+ id) |}.




End Scenario.

(** ** User model: instance methods *)

Module UserMethods.

(** The plain object of a hydrated document: a path the query did not
    load is absent. *)
Definition docObject (this : Doc) : list (string * Json) :=
  if password_selected this then toObject (_id this) (fields this)
  else List.filter (λ kv, negb (String.eqb kv.1 "password"))
                   (toObject (_id this) (fields this)).

(** [UserSchema.methods.toJSON]: [toObject()], then [delete user.password]. *)
Definition toJSON (this : Doc) : Json :=
  JObj (List.filter (λ kv, negb (String.eqb kv.1 "password")) (docObject this)).

Section Methods.
Context `{Auth.Bcrypt}.

(** [UserSchema.methods.comparePassword] *)
Definition comparePassword (this : Doc) (candidatePassword : string) : M bool :=
  Auth.bcrypt_compare candidatePassword (doc_password this).

End Methods.

End UserMethods.

(** ** Routers and the application shell *)

Module Routes.

Section Router.
Context `{Driver}.

(** [validateUserId] of the follow router; [next] is the rest of the
    chain. *)
Definition validateUserId (userId : string) (next : M Outcome) : M Outcome :=
  if String.eqb userId "" || String.eqb (trim userId) "" then
    res_json 400 [("success", JBool false); ("message", JStr "User ID is required")]
  else next.

(** [router.post("/:userId", authMiddleware, validateUserId, followUser)],
    from the point where the auth middleware has set [req.user] and called
    [next()]. *)
Definition post_follow (req : Request) : M Outcome :=
  validateUserId (params_userId req) (followUser req).

(** [router.delete("/:userId", authMiddleware, validateUserId, unfollowUser)],
    from the same point. *)
Definition delete_follow (req : Request) : M Outcome :=
  validateUserId (params_userId req) (unfollowUser req).

(** [router.get("/followers/:userId", validateUserId, getFollowers)] *)
Definition get_followers (userId : string) : M Outcome :=
  validateUserId userId (getFollowers userId).

(** [router.get("/following/:userId", validateUserId, getFollowing)] *)
Definition get_following (userId : string) : M Outcome :=
  validateUserId userId (getFollowing userId).

End Router.

End Routes.

Module App.

(** [err.status]: the errors of the model ([Error] objects, validation and
    driver errors) carry no such property. *)
Definition error_status (err : Error) : option nat := None.

(** The global error handler:
    [res.status(err.status || 500).json({ success: false, message: err.message || ... })]. *)
Definition errorHandler (err : Error) : M Outcome :=
  res_json (match error_status err with
            | Some code => if Nat.eqb code 0 then 500 else code
            | None => 500
            end)
           [("success", JBool false);
            ("message", JStr (if String.eqb (message err) "" then "Internal Server Error"
                              else message err))].

(** A mounted route: an error handed to [next] reaches the error handler. *)
Definition mounted (route : M Outcome) : M Outcome :=
  o ← route;
  match o with
  | NextError err => errorHandler err
  | _ => ret o
  end.

End App.

(** ** Vocabulary of the further properties *)

Module Shapes.

(** The [success] flag of a response body. *)
Definition success_flag (o : Outcome) : option bool :=
  match o with
  | Responded _ body =>
      match prop "success" body with
      | Some (JBool b) => Some b
      | _ => None
      end
  | _ => None
  end.

(** The [total] of a list response. *)
Definition total_of (o : Outcome) : option nat :=
  match o with
  | Responded _ body =>
      match prop "total" body with
      | Some (JNum n) => Some n
      | _ => None
      end
  | _ => None
  end.

(** An answer with one of the given status codes whose [success] flag
    says whether the status is 200. *)
Definition well_answered (codes : list nat) (o : Outcome) : Prop :=
  ∃ code body, o = Responded code body ∧ code ∈ codes ∧
               success_flag o = Some (Nat.eqb code 200).

(** A string of white space only (the empty string included). *)
Definition blank (s : string) : bool :=
  forallb is_space (chars (list_ascii_of_string s)).

(** The paths of a user that the follow handlers have no business with. *)
Definition same_account (u u' : User) : Prop :=
  username u' = username u ∧ email u' = email u ∧ password u' = password u ∧
  bio u' = bio u ∧ profile u' = profile u.

(** What a mutating handler called by [me] for [target] may change: no
    user appears or disappears, no account path changes, and only the
    following array of the user that [me] names and the followers array of
    the user that [target] names may differ. *)
Definition kept `{Driver} (me target : string) (users users' : gmap string User) : Prop :=
  ∀ i, match users !! i, users' !! i with
       | Some u, Some u' =>
           same_account u u' ∧
           (castObjectId me ≠ Some i → following u' = following u) ∧
           (castObjectId target ≠ Some i → followers u' = followers u)
       | None, None => True
       | _, _ => False
       end.

(** Two collections with the same users, each with the same account
    paths and the same two arrays. *)
Definition restored (users users' : gmap string User) : Prop :=
  ∀ i, match users !! i, users' !! i with
       | Some u, Some u' =>
           same_account u u' ∧ following u' = following u ∧ followers u' = followers u
       | None, None => True
       | _, _ => False
       end.

(** How a run of a mutating handler leaves its session, by outcome. *)
Definition lifecycle (users : gmap string User) (r : Run) : Prop :=
  match outcome r with
  | Responded code _ =>
      if Nat.eqb code 200 then session r = TxnCommitted ∧ ended r = true
      else session r = TxnOpen users ∧ ended r = false ∧ store r = users
  | NextError _ => session r = TxnAborted ∧ ended r = true ∧ store r = users
  | Rejected _ => session r ≠ TxnCommitted ∧ ended r = false ∧ store r = users
  end.

(** Events of a request that only reads and answers. *)
Definition quiet (ev : Event) : bool :=
  match ev with
  | EvFindById _ | EvPopulate | EvRespond _ | EvNext _ => true
  | _ => false
  end.

(** Rows of the follows collection that the schema and its index admit. *)
Definition admissible (rows : FollowModel.Follows) : Prop :=
  NoDup rows ∧ ∀ a b, (a, b) ∈ rows → a ≠ b.

(** Usernames and emails name at most one stored user. *)
Definition unique_identities (users : gmap string User) : Prop :=
  ∀ i j ui uj, users !! i = Some ui → users !! j = Some uj →
    username ui = username uj ∨ email ui = email uj → i = j.

End Shapes.
Export Shapes.

(** ** Further sample data *)

Module Samples.
Import Scenario.

(** A token library without a configured secret: signing throws. *)
Definition no_secret_jwt : Auth.Jwt := {| Auth.sign := λ _, None |}.

(** carol registers with the given password. *)
Definition carol_registration (password : string) : Auth.RegisterBody :=
  Auth.mkRegisterBody (Some "carol") (Some "carol@example.com") (Some password)
                      None None.

(** Randomness of a request that names its document [idC]. *)
Definition entropy1 : Auth.Entropy := Auth.mkEntropy 3 5 idC.

(** An identifier that is one no-break space (U+00A0). *)
Definition nbsp : string :=
  String (ascii_of_nat 194) (String (ascii_of_nat 160) EmptyString).

(** A follows collection where alice follows carol. *)
Definition follows0 : FollowModel.Follows := [(idA, idC)].

(** Only the second save of a follow fails. *)
Definition target_save_fails : Faults :=
  λ op, match op with OpSaveTarget => true | _ => false end.

End Samples.

(** * Properties *)

(** ** Symbolic execution of a handler *)

Ltac exec :=
  cbv beta iota zeta delta
    [run followUser unfollowUser getFollowers getFollowing
     mbind M_bind bind try_catch ret throw storeCall
     startSession startTransaction commitTransaction abortTransaction endSession
     findById save populate res_json next emit set_txn set_db set_ended view
     faults db txn sessionEnded log outcome store session ended trace
     status_of no_faults user_id params_userId negb
     hydrate fields _id modified push_following push_followers
     assign_following assign_followers];
  cbn [fmap option_fmap option_map].

Ltac split_step :=
  match goal with
  | |- context [match castObjectId ?x with _ => _ end] =>
      destruct (castObjectId x) eqn:?
  | |- context [?g <$> (?m !! ?k)] => destruct (m !! k) eqn:?
  | |- context [if ?b then _ else _] =>
      lazymatch b with
      | context [if _ then _ else _] => fail
      | context [match _ with _ => _ end] => fail
      | _ => destruct b eqn:?
      end
  end.

Ltac exec_all := exec; repeat (split_step; exec).

Ltac exec_under :=
  exec_all; simplify_eq.

Ltac eqb_facts :=
  repeat match goal with
  | E : String.eqb _ _ = true |- _ => apply String.eqb_eq in E
  | E : String.eqb _ _ = false |- _ => apply String.eqb_neq in E
  | E : negb _ = false |- _ => apply negb_false_iff in E
  | E : negb _ = true |- _ => apply negb_true_iff in E
  end.

(** ** Arrays of identifiers *)

Lemma includes_true (x : ObjectId) (l : list ObjectId) :
  includes x l = true ↔ x ∈ l.
Proof.
  unfold includes. rewrite existsb_exists, list_elem_of_In. split.
  - intros (y & Hy & E). apply String.eqb_eq in E. by subst.
  - intros Hx. exists x. split; [done | apply String.eqb_refl].
Qed.

Lemma includes_false (x : ObjectId) (l : list ObjectId) :
  includes x l = false ↔ x ∉ l.
Proof.
  rewrite <- includes_true. destruct (includes x l); split; congruence.
Qed.

Lemma elem_of_without (x y : ObjectId) (l : list ObjectId) :
  y ∈ without x l ↔ y ∈ l ∧ y ≠ x.
Proof.
  unfold without. rewrite !list_elem_of_In, filter_In, negb_true_iff.
  by rewrite String.eqb_neq.
Qed.

Lemma without_absent (x : ObjectId) (l : list ObjectId) :
  x ∉ l → without x l = l.
Proof.
  induction l as [|y l IH]; [done|]. intros [Hxy Hl]%not_elem_of_cons.
  unfold without in *. cbn [List.filter].
  destruct (String.eqb_spec y x) as [->|_]; [done|]. cbn [negb]. by rewrite IH.
Qed.

Lemma occurrences_app (x : ObjectId) (l k : list ObjectId) :
  occurrences x (l ++ k) = occurrences x l + occurrences x k.
Proof. unfold occurrences. by rewrite List.filter_app, length_app. Qed.

Lemma occurrences_self (x : ObjectId) : occurrences x [x] = 1.
Proof. unfold occurrences. cbn. by rewrite String.eqb_refl. Qed.

(** ** Documents and the collection *)

Lemma set_following_same (u : User) : set_following (following u) u = u.
Proof. by destruct u. Qed.

Lemma set_followers_same (u : User) : set_followers (followers u) u = u.
Proof. by destruct u. Qed.

Lemma followed_lookup_me (A B : ObjectId) (ua : User) (users : gmap string User) :
  users !! A = Some ua →
  ∃ ua', followed A B users !! A = Some ua' ∧
         following ua' = following ua ++ [B] ∧
         (A ≠ B → followers ua' = followers ua).
Proof.
  intros Hme. unfold followed. rewrite !lookup_alter.
  repeat case_decide; simplify_eq; rewrite Hme; cbn;
    (eexists; split; [reflexivity|]; by split).
Qed.

Lemma followed_lookup_target (A B : ObjectId) (ub : User) (users : gmap string User) :
  users !! B = Some ub →
  ∃ ub', followed A B users !! B = Some ub' ∧
         followers ub' = followers ub ++ [A] ∧
         (A ≠ B → following ub' = following ub).
Proof.
  intros Htarget. unfold followed. rewrite !lookup_alter.
  repeat case_decide; simplify_eq; rewrite Htarget; cbn;
    (eexists; split; [reflexivity|]; by split).
Qed.

Lemma unfollowed_lookup_me (me target : string) (A B : ObjectId) (ua : User)
    (users : gmap string User) :
  users !! A = Some ua →
  ∃ ua', unfollowed me target A B users !! A = Some ua' ∧
         following ua' = without target (following ua) ∧
         (A ≠ B → followers ua' = followers ua).
Proof.
  intros Hme. unfold unfollowed. rewrite !lookup_alter.
  repeat case_decide; simplify_eq; rewrite Hme; cbn;
    (eexists; split; [reflexivity|]; by split).
Qed.

Lemma unfollowed_lookup_target (me target : string) (A B : ObjectId) (ub : User)
    (users : gmap string User) :
  users !! B = Some ub →
  ∃ ub', unfollowed me target A B users !! B = Some ub' ∧
         followers ub' = without me (followers ub) ∧
         (A ≠ B → following ub' = following ub).
Proof.
  intros Htarget. unfold unfollowed. rewrite !lookup_alter.
  repeat case_decide; simplify_eq; rewrite Htarget; cbn;
    (eexists; split; [reflexivity|]; by split).
Qed.

(** What the two saves of a follow leave in the collection. *)
Lemma followed_store (A B : ObjectId) (ua ub : User) (users : gmap string User) :
  users !! A = Some ua → users !! B = Some ub →
  alter (λ u, set_followers (followers ub ++ [A]) u) B
    (alter (λ u, set_following (following ua ++ [B]) u) A users)
  = followed A B users.
Proof.
  intros Hme Htarget. unfold followed. apply map_eq. intros i.
  rewrite !lookup_alter.
  destruct (decide (B = i)) as [<-|]; destruct (decide (A = B)) as [->|];
    rewrite ?Hme, ?Htarget; simplify_eq; try done.
  all: repeat case_decide; simplify_eq; rewrite ?Hme, ?Htarget; try done.
Qed.

(** What the two saves of an unfollow leave in the collection. *)
Lemma unfollowed_store (me target : string) (A B : ObjectId) (ua ub : User)
    (users : gmap string User) :
  users !! A = Some ua → users !! B = Some ub →
  alter (λ u, set_followers (without me (followers ub)) u) B
    (alter (λ u, set_following (without target (following ua)) u) A users)
  = unfollowed me target A B users.
Proof.
  intros Hme Htarget. unfold unfollowed. apply map_eq. intros i.
  rewrite !lookup_alter.
  destruct (decide (B = i)) as [<-|]; destruct (decide (A = B)) as [->|];
    rewrite ?Hme, ?Htarget; simplify_eq; try done.
  all: repeat case_decide; simplify_eq; rewrite ?Hme, ?Htarget; try done.
Qed.

Section FollowProperties.
Context `{Driver}.

(** The handler either leaves the committed collection as it was, or
    responds 200 after both documents were written and committed. *)
Lemma followUser_runs (f : Faults) (me target : string) (users : gmap string User) :
  let r := run (followUser (mkRequest me target)) f users in
  ((status_of (outcome r) ≠ Some 200) ∧ (store r = users) ∧ (session r ≠ TxnCommitted)) ∨
  (∃ A B ua ub,
     castObjectId me = Some A ∧ castObjectId target = Some B ∧
     users !! A = Some ua ∧ users !! B = Some ub ∧ (me ≠ target) ∧
     isValidObjectId target = true ∧ (target ∉ following ua) ∧
     outcome r = Responded 200 (JObj [("success", JBool true);
                                      ("message", JStr "User followed successfully")]) ∧
     store r = followed A B users ∧
     session r = TxnCommitted ∧
     trace r = [EvStartSession; EvStartTransaction; EvFindById A; EvFindById B;
                EvSave A; EvSave B; EvCommit; EvEndSession; EvRespond 200]).
Proof.
  exec_all; try (left; by split_and!).
  right. eqb_facts. eexists _, _, _, _. split_and!; try done.
  - by apply includes_false.
  - cbn. by apply followed_store.
Qed.

Lemma followUser_ok (me target : string) (A B : ObjectId) (ua ub : User)
    (users : gmap string User) :
  castObjectId me = Some A → castObjectId target = Some B →
  me ≠ target → isValidObjectId target = true →
  users !! A = Some ua → users !! B = Some ub → target ∉ following ua →
  let r := run (followUser (mkRequest me target)) no_faults users in
  outcome r = Responded 200 (JObj [("success", JBool true);
                                   ("message", JStr "User followed successfully")]) ∧
  store r = followed A B users.
Proof.
  intros HcA HcB HAB Hvalid HA HB Hfresh.
  apply includes_false in Hfresh. apply String.eqb_neq in HAB.
  exec. rewrite Hvalid, HAB. exec. rewrite HcA. exec. rewrite HA. exec.
  rewrite HcB. exec. rewrite HB. exec. rewrite Hfresh. exec.
  split; [done|]. cbn. by apply followed_store.
Qed.

Lemma followUser_already (me target : string) (A B : ObjectId) (ua ub : User)
    (users : gmap string User) :
  castObjectId me = Some A → castObjectId target = Some B →
  me ≠ target → isValidObjectId target = true →
  users !! A = Some ua → users !! B = Some ub → target ∈ following ua →
  let r := run (followUser (mkRequest me target)) no_faults users in
  outcome r = Responded 409 (JObj [("success", JBool false);
                                   ("message", JStr "Already following this user")]) ∧
  store r = users.
Proof.
  intros HcA HcB HAB Hvalid HA HB Hdup.
  apply includes_true in Hdup. apply String.eqb_neq in HAB.
  exec. rewrite Hvalid, HAB. exec. rewrite HcA. exec. rewrite HA. exec.
  rewrite HcB. exec. rewrite HB. exec. by rewrite Hdup.
Qed.

Lemma unfollowUser_runs (f : Faults) (me target : string) (users : gmap string User) :
  let r := run (unfollowUser (mkRequest me target)) f users in
  ((status_of (outcome r) ≠ Some 200) ∧ (store r = users) ∧ (session r ≠ TxnCommitted)) ∨
  (∃ A B ua ub,
     castObjectId me = Some A ∧ castObjectId target = Some B ∧
     users !! A = Some ua ∧ users !! B = Some ub ∧
     isValidObjectId target = true ∧
     outcome r = Responded 200 (JObj [("success", JBool true);
                                      ("message", JStr "User unfollowed successfully")]) ∧
     store r = unfollowed me target A B users ∧
     session r = TxnCommitted ∧
     trace r = [EvStartSession; EvStartTransaction; EvFindById A; EvFindById B;
                EvSave A; EvSave B; EvCommit; EvEndSession; EvRespond 200]).
Proof.
  exec_all; try (left; by split_and!).
  right. eqb_facts. eexists _, _, _, _. split_and!; try done.
  cbn. by apply unfollowed_store.
Qed.

Lemma unfollowUser_ok (me target : string) (A B : ObjectId) (ua ub : User)
    (users : gmap string User) :
  castObjectId me = Some A → castObjectId target = Some B →
  isValidObjectId target = true →
  users !! A = Some ua → users !! B = Some ub →
  let r := run (unfollowUser (mkRequest me target)) no_faults users in
  outcome r = Responded 200 (JObj [("success", JBool true);
                                   ("message", JStr "User unfollowed successfully")]) ∧
  store r = unfollowed me target A B users.
Proof.
  intros HcA HcB Hvalid HA HB.
  exec. rewrite Hvalid. exec. rewrite HcA. exec. rewrite HA. exec.
  rewrite HcB. exec. rewrite HB. exec.
  split; [done|]. cbn. by apply unfollowed_store.
Qed.

End FollowProperties.
(** ** The mutating handlers: atomicity, validation, removal *)

Section Mutations.
Context `{Driver}.

(** C2. followUser is all-or-nothing. Whatever store operation fails and
    whatever the request is, a run that does not answer 200 leaves the
    committed collection as it was; a run that answers 200 has written both
    documents and committed them together before the response; and the
    caller's following array changed exactly when the target's followers
    array changed. *)
Theorem followUser_all_or_nothing (f : Faults) (req : Request) (users : gmap string User) :
  let r := run (followUser req) f users in
  ((status_of (outcome r) ≠ Some 200) → store r = users) ∧
  (status_of (outcome r) = Some 200 →
     ∃ A B ua ub,
       castObjectId (user_id req) = Some A ∧ castObjectId (params_userId req) = Some B ∧
       users !! A = Some ua ∧ users !! B = Some ub ∧
       store r = followed A B users ∧
       session r = TxnCommitted ∧
       trace r = [EvStartSession; EvStartTransaction;
                  EvFindById A; EvFindById B; EvSave A; EvSave B;
                  EvCommit; EvEndSession; EvRespond 200]) ∧
  (∀ A B ua ub ua' ub',
     castObjectId (user_id req) = Some A → castObjectId (params_userId req) = Some B →
     users !! A = Some ua → users !! B = Some ub →
     store r !! A = Some ua' → store r !! B = Some ub' →
     ((following ua' ≠ following ua) ↔ (followers ub' ≠ followers ub))).
Proof.
  destruct req as [me target]. cbn [user_id params_userId].
  destruct (followUser_runs f me target users)
    as [(Hcode & Hstore & _)
       | (A & B & ua & ub & HcA & HcB & Hme & Htarget & Hne & _ & _ & Hout & Hstore & Hsess & Htrace)];
    cbv zeta.
  - split_and!; [done | done |].
    intros A B ua ub ua' ub' _ _ Hme Htarget. rewrite Hstore. intros ? ?. simplify_eq. tauto.
  - rewrite Hout, Hstore. split_and!.
    + intros Hcode. by destruct Hcode.
    + intros _. by exists A, B, ua, ub.
    + intros A0 B0 ua0 ub0 ua' ub' ? ? ? ?. simplify_eq.
      destruct (followed_lookup_me A B ua users Hme) as (ua1 & Ea & Fa & _).
      destruct (followed_lookup_target A B ub users Htarget) as (ub1 & Eb & Fb & _).
      rewrite Ea, Eb. intros ? ?. simplify_eq. rewrite Fa, Fb.
      split; intros _ E.
      * apply (f_equal length) in E. rewrite length_app in E. cbn in E. lia.
      * apply (f_equal length) in E. rewrite length_app in E. cbn in E. lia.
Qed.

(** C4 (as amended). In followUser and unfollowUser the session and its
    transaction are opened first. Every validation response (400, 404, 409)
    comes after the transaction was opened, and between the opening and the
    response the handler only reads: no document is saved and nothing is
    committed before validation is complete. *)
Theorem validation_inside_transaction (f : Faults) (req : Request) (users : gmap string User)
    (code : nat) (body : Json) :
  code ≠ 200 →
  (outcome (run (followUser req) f users) = Responded code body →
   ∃ reads, trace (run (followUser req) f users)
              = EvStartSession :: EvStartTransaction :: reads ++ [EvRespond code]
            ∧ forallb is_read reads = true) ∧
  (outcome (run (unfollowUser req) f users) = Responded code body →
   ∃ reads, trace (run (unfollowUser req) f users)
              = EvStartSession :: EvStartTransaction :: reads ++ [EvRespond code]
            ∧ forallb is_read reads = true).
Proof.
  intros Hcode. destruct req as [me target]. split.
  - exec_all; intros E; simplify_eq;
      first [ by exists [] | by eexists [EvFindById _; EvFindById _] ].
  - exec_all; intros E; simplify_eq;
      first [ by exists [] | by eexists [EvFindById _; EvFindById _] ].
Qed.

(** C5. For existing users A and B with no edge from A to B on either
    array, unfollowUser(A, B) answers 200 and the collection is unchanged.
    The request may spell the two identifiers in any way the driver casts
    to A and B; what has to be absent from the arrays is what the filters
    look for, the strings as sent (for identifiers spelled as the store
    spells them: B from A.following and A from B.followers). *)
Theorem unfollowUser_absent_edge_noop (me target : string) (A B : ObjectId) (ua ub : User)
    (users : gmap string User) :
  castObjectId me = Some A → castObjectId target = Some B →
  isValidObjectId target = true →
  users !! A = Some ua → users !! B = Some ub →
  target ∉ following ua → me ∉ followers ub →
  let r := run (unfollowUser (mkRequest me target)) no_faults users in
  outcome r = Responded 200 (JObj [("success", JBool true);
                                   ("message", JStr "User unfollowed successfully")]) ∧
  store r = users.
Proof.
  intros HcA HcB Hvalid HA HB HnoAB HnoBA.
  destruct (unfollowUser_ok me target A B ua ub users HcA HcB Hvalid HA HB) as [Hout Hstore].
  cbv zeta. rewrite Hout, Hstore. split; [done|].
  rewrite <- (unfollowed_store me target A B ua ub users HA HB).
  rewrite !without_absent by done.
  apply map_eq. intros i. rewrite !lookup_alter.
  repeat case_decide; simplify_eq; rewrite ?HA, ?HB; cbn;
    rewrite ?set_following_same, ?set_followers_same; try done.
  all: by destruct (users !! i) as [[]|].
Qed.

End Mutations.
(** ** The follows collection of the normalized variant *)

Lemma same_edge_true (a b : ObjectId) (row : ObjectId * ObjectId) :
  FollowModel.same_edge a b row = true ↔ row = (a, b).
Proof.
  destruct row as [x y]. unfold FollowModel.same_edge. cbn.
  rewrite andb_true_iff, !String.eqb_eq. split; [by intros [-> ->] | by intros [= -> ->]].
Qed.

Lemma edges_absent (a b : ObjectId) (rows : FollowModel.Follows) :
  existsb (FollowModel.same_edge a b) rows = false → FollowModel.edges a b rows = 0.
Proof.
  unfold FollowModel.edges. induction rows as [|row rows IH]; [done|]. cbn.
  intros [E1 E2]%orb_false_iff. rewrite E1. by apply IH.
Qed.

Lemma edges_unique (a b : ObjectId) (rows : FollowModel.Follows) :
  NoDup rows → existsb (FollowModel.same_edge a b) rows = true →
  FollowModel.edges a b rows = 1.
Proof.
  unfold FollowModel.edges. induction 1 as [|row rows Hrow Hrows IH]; [done|]. cbn.
  destruct (FollowModel.same_edge a b row) eqn:E; cbn.
  - intros _. f_equal. apply same_edge_true in E as ->.
    apply (edges_absent a b). apply not_true_is_false. intros Hex.
    apply existsb_exists in Hex as (row & Hin & ->%same_edge_true).
    by apply list_elem_of_In in Hin.
  - apply IH.
Qed.

Lemma same_edge_refl (a b : ObjectId) : FollowModel.same_edge a b (a, b) = true.
Proof. by apply same_edge_true. Qed.

Lemma recorded_edge (a b : ObjectId) (rows : FollowModel.Follows) :
  existsb (FollowModel.same_edge a b) (rows ++ [(a, b)]) = true.
Proof.
  rewrite existsb_app. cbn [existsb]. rewrite same_edge_refl. apply orb_true_iff. right. done.
Qed.

Lemma create_fresh (a b : ObjectId) (rows : FollowModel.Follows) :
  a ≠ b → existsb (FollowModel.same_edge a b) rows = false →
  FollowModel.followUser (Some a) (Some b) rows = (Ok (a, b), rows ++ [(a, b)]).
Proof.
  intros Hab%String.eqb_neq Hex.
  unfold FollowModel.followUser, FollowModel.create, FollowModel.pre_validate,
    FollowModel.validate.
  cbn [FollowModel.follower FollowModel.following]. by rewrite Hab, Hex.
Qed.

Lemma create_duplicate (a b : ObjectId) (rows : FollowModel.Follows) :
  a ≠ b → existsb (FollowModel.same_edge a b) rows = true →
  FollowModel.followUser (Some a) (Some b) rows = (Throw DuplicateKey, rows).
Proof.
  intros Hab%String.eqb_neq Hex.
  unfold FollowModel.followUser, FollowModel.create, FollowModel.pre_validate,
    FollowModel.validate.
  cbn [FollowModel.follower FollowModel.following]. by rewrite Hab, Hex.
Qed.

(** ** The list endpoints *)

Lemma project_card (id : ObjectId) (u : User) :
  project ["username"; "email"; "profile"] id u
  = JObj [ ("_id", JStr id);
           ("username", JStr (username u));
           ("email", JStr (email u));
           ("profile", JObj [("imageUrl", JStr (imageUrl (profile u)))]) ].
Proof. reflexivity. Qed.

Lemma project_public (id : ObjectId) (u u' : User) :
  username u = username u' → email u = email u' → profile u = profile u' →
  project ["username"; "email"; "profile"] id u
  = project ["username"; "email"; "profile"] id u'.
Proof. intros E1 E2 E3. rewrite !project_card. by rewrite E1, E2, E3. Qed.

Lemma summaries_public (users users' : gmap string User) (refs : list ObjectId) :
  (∀ id u', users' !! id = Some u' →
     ∃ u, users !! id = Some u ∧
          username u' = username u ∧ email u' = email u ∧ profile u' = profile u) →
  (∀ id, users' !! id = None → users !! id = None) →
  summaries users' refs = summaries users refs.
Proof.
  intros Hsome Hnone. unfold summaries. apply list_omap_ext, Forall2_same_length_lookup.
  split; [done|]. intros i x y Hx Hy. simplify_eq.
  destruct (users' !! x) as [u'|] eqn:E.
  - destruct (Hsome x u' E) as (u & -> & E1 & E2 & E3). cbn. f_equal.
    by apply project_public.
  - by rewrite (Hnone x E).
Qed.

Lemma summaries_keys (users : gmap string User) (refs : list ObjectId) (j : Json) :
  j ∈ summaries users refs → keys j = ["_id"; "username"; "email"; "profile"].
Proof.
  unfold summaries. rewrite list_elem_of_omap. intros (id & _ & Hj).
  destruct (users !! id) as [u|]; [|done]. cbn in Hj. by simplify_eq.
Qed.

Lemma same_public_lookup (users users' : gmap string User) (id : ObjectId) :
  same_public users users' →
  match users !! id, users' !! id with
  | Some u, Some u' =>
      username u = username u' ∧ email u = email u' ∧ profile u = profile u' ∧
      followers u = followers u' ∧ following u = following u'
  | None, None => True
  | _, _ => False
  end.
Proof.
  intros Hsame. specialize (Hsame id).
  destruct (users !! id) as [[]|], (users' !! id) as [[]|]; cbn in *; by simplify_eq.
Qed.

Lemma same_public_summaries (users users' : gmap string User) (refs : list ObjectId) :
  same_public users users' → summaries users refs = summaries users' refs.
Proof.
  intros Hsame. unfold summaries. apply list_omap_ext, Forall2_same_length_lookup.
  split; [done|]. intros i x y Hx Hy. simplify_eq.
  pose proof (same_public_lookup users users' x Hsame) as Hx'.
  destruct (users !! x) as [u|], (users' !! x) as [u'|]; try done.
  destruct Hx' as (E1 & E2 & E3 & _). cbn. f_equal. by apply project_public.
Qed.

Section Disclosure.
Context `{Driver}.

(** The response of getFollowers as a function of the request, the
    failing store operations and the collection. *)
Lemma getFollowers_outcome (f : Faults) (userId : string) (users : gmap string User) :
  outcome (run (getFollowers userId) f users)
  = if negb (isValidObjectId userId) then
      Responded 400 (JObj [("success", JBool false); ("message", JStr "Invalid user ID")])
    else match castObjectId userId with
         | None => NextError (CastError userId "_id")
         | Some id =>
             if f OpFindTarget then NextError (StoreError OpFindTarget)
             else match users !! id with
                  | None =>
                      Responded 404 (JObj [("success", JBool false);
                                           ("message", JStr "User not found")])
                  | Some u =>
                      if f OpPopulate then NextError (StoreError OpPopulate)
                      else Responded 200
                             (JObj [ ("success", JBool true);
                                     ("followers", JArr (summaries users (followers u)));
                                     ("total", JNum (length (summaries users (followers u)))) ])
                  end
         end.
Proof. by exec_all. Qed.

Lemma getFollowing_outcome (f : Faults) (userId : string) (users : gmap string User) :
  outcome (run (getFollowing userId) f users)
  = if negb (isValidObjectId userId) then
      Responded 400 (JObj [("success", JBool false); ("message", JStr "Invalid user ID")])
    else match castObjectId userId with
         | None => NextError (CastError userId "_id")
         | Some id =>
             if f OpFindTarget then NextError (StoreError OpFindTarget)
             else match users !! id with
                  | None =>
                      Responded 404 (JObj [("success", JBool false);
                                           ("message", JStr "User not found")])
                  | Some u =>
                      if f OpPopulate then NextError (StoreError OpPopulate)
                      else Responded 200
                             (JObj [ ("success", JBool true);
                                     ("following", JArr (summaries users (following u)));
                                     ("total", JNum (length (summaries users (following u)))) ])
                  end
         end.
Proof. by exec_all. Qed.

(** C7 (as amended). getFollowers and getFollowing never disclose the
    password: on two collections that differ only in stored passwords both
    endpoints give the same response, whatever the request and whatever
    store operation fails; and every summary they return has exactly the
    fields _id, username, email and profile. *)
Theorem list_endpoints_hide_password (f : Faults) (userId : string)
    (users users' : gmap string User) :
  same_public users users' →
  outcome (run (getFollowers userId) f users) = outcome (run (getFollowers userId) f users') ∧
  outcome (run (getFollowing userId) f users) = outcome (run (getFollowing userId) f users') ∧
  (∀ j, j ∈ listed "followers" (outcome (run (getFollowers userId) f users)) →
        keys j = ["_id"; "username"; "email"; "profile"] ∧ "password" ∉ keys j) ∧
  (∀ j, j ∈ listed "following" (outcome (run (getFollowing userId) f users)) →
        keys j = ["_id"; "username"; "email"; "profile"] ∧ "password" ∉ keys j).
Proof.
  intros Hsame. rewrite !getFollowers_outcome, !getFollowing_outcome.
  destruct (negb (isValidObjectId userId));
    [by split_and!; [| | intros j ?%elem_of_nil | intros j ?%elem_of_nil]|].
  destruct (castObjectId userId) as [id|];
    [|by split_and!; [| | intros j ?%elem_of_nil | intros j ?%elem_of_nil]].
  pose proof (same_public_lookup users users' id Hsame) as Hu.
  assert (Hpw : "password" ∉ ["_id"; "username"; "email"; "profile"]).
  { intros Hin. by repeat (apply elem_of_cons in Hin as [?|Hin]; [done|]);
      apply elem_of_nil in Hin. }
  destruct (f OpFindTarget), (f OpPopulate);
    destruct (users !! id) as [u|], (users' !! id) as [u'|];
    try done;
    try (split_and!; [done | done | by intros j ?%elem_of_nil | by intros j ?%elem_of_nil]).
  destruct Hu as (_ & _ & _ & Hfrs & Hfng).
  rewrite Hfrs, Hfng, !(same_public_summaries users users') by done.
  split_and!; [done | done | |].
  - intros j Hj. change (j ∈ summaries users' (followers u')) in Hj.
    rewrite (summaries_keys _ _ _ Hj). by split.
  - intros j Hj. change (j ∈ summaries users' (following u')) in Hj.
    rewrite (summaries_keys _ _ _ Hj). by split.
Qed.

(** followUser never looks at a followers array: replacing the followers
    array of any stored user changes no response. *)
Lemma followers_array_unused (f : Faults) (req : Request) (users : gmap string User)
    (k : ObjectId) (l : list ObjectId) :
  outcome (run (followUser req) f (alter (set_followers l) k users))
  = outcome (run (followUser req) f users).
Proof.
  destruct req as [me target]. exec.
  repeat match goal with
  | |- context [f ?op] => destruct (f op) eqn:?; exec
  | |- context [isValidObjectId ?x] => destruct (isValidObjectId x) eqn:?; exec
  | |- context [String.eqb ?x ?y] => destruct (String.eqb x y) eqn:?; exec
  | |- context [match castObjectId ?x with _ => _ end] =>
      destruct (castObjectId x) eqn:?; exec
  end; try done;
  rewrite ?lookup_alter;
  repeat match goal with
  | |- context [users !! ?i] => destruct (users !! i) eqn:?
  end;
  repeat case_decide; simplify_eq; exec; try done;
  cbn [following set_followers];
  repeat match goal with
  | |- context [includes ?x ?y] => destruct (includes x y) eqn:?; exec
  | |- context [f ?op] => destruct (f op) eqn:?; exec
  end; done.
Qed.

(** From a collection where B lists A as a follower while the target as
    sent is not in A's following array, followUser answers 200 and appends
    one more occurrence of A to B's followers. *)
Lemma followUser_out_of_lockstep (me target : string) (A B : ObjectId) (ua ub : User)
    (users : gmap string User) :
  castObjectId me = Some A → castObjectId target = Some B →
  me ≠ target → isValidObjectId target = true →
  users !! A = Some ua → users !! B = Some ub →
  A ∈ followers ub → target ∉ following ua →
  let r := run (followUser (mkRequest me target)) no_faults users in
  status_of (outcome r) = Some 200 ∧
  ∃ ub', store r !! B = Some ub' ∧
         followers ub' = followers ub ++ [A] ∧
         occurrences A (followers ub') = S (occurrences A (followers ub)) ∧
         (2 ≤ occurrences A (followers ub'))%nat.
Proof.
  intros HcA HcB HAB Hvalid HA HB Hlisted Hfresh.
  destruct (followUser_ok me target A B ua ub users HcA HcB HAB Hvalid HA HB Hfresh)
    as [Hout Hstore].
  cbv zeta. rewrite Hout, Hstore. split; [done|].
  destruct (followed_lookup_target A B ub users HB) as (ub' & Eb & Fb & _).
  exists ub'. split; [done|]. rewrite Fb.
  rewrite occurrences_app, occurrences_self.
  split_and!; [done | lia |].
  assert (0 < occurrences A (followers ub))%nat; [|lia].
  unfold occurrences. apply list_elem_of_In in Hlisted.
  assert (In A (List.filter (String.eqb A) (followers ub))) as Hf
    by (apply filter_In; split; [done | apply String.eqb_refl]).
  destruct (List.filter (String.eqb A) (followers ub)); [done | cbn; lia].
Qed.

End Disclosure.

(** ** Authentication (class-106) *)

Ltac exec_auth :=
  cbv beta iota zeta delta
    [run Auth.LoginController Auth.RegisterController Auth.LogoutController
     Auth.create Auth.createToken Auth.cookie Auth.clearCookie Auth.bcrypt_compare
     Auth.identifier Auth.login_password
     Auth.reg_username Auth.reg_email Auth.reg_password Auth.reg_bio Auth.reg_imageUrl
     mbind M_bind bind try_catch ret throw storeCall findOne
     res_json next emit set_txn set_db set_ended view
     faults db txn sessionEnded log outcome store session ended trace
     status_of no_faults negb
     fields _id modified];
  cbn [fmap option_fmap option_map].

Section Login.
Context `{Auth.Bcrypt} `{Auth.Jwt}.

Lemma doc_password_hydrate (id : ObjectId) (u : User) :
  doc_password (hydrate false id u) = None.
Proof. reflexivity. Qed.

(** A user loaded by [findOne] carries no password. *)
Lemma findOne_hides_password (filter : User → bool) (w w' : World) (d : Doc) :
  findOne filter w = (Ok (Some d), w') → doc_password d = None.
Proof.
  unfold findOne, storeCall. destruct (faults w OpFindOne); [done|].
  intros [= Hd _].
  destruct (head _) as [kv|] in Hd; [|done]. cbn in Hd. by simplify_eq.
Qed.



End Login.

(** ** The scenario, evaluated *)

Import Scenario.

Lemma idA_idB : idA ≠ idB.
Proof. apply String.eqb_neq. reflexivity. Qed.

Lemma nobody (x : ObjectId) : x ∉ [].
Proof. by intros ?%elem_of_nil. Qed.

(** The users of a collection that is written out. *)
Ltac stored H :=
  repeat (apply lookup_insert_Some in H as [[<- <-]|[? H]]);
  try (by rewrite lookup_empty in H).

Lemma friends_duplicate_free : duplicate_free friends.
Proof.
  intros a ua Ha. unfold friends in Ha. stored Ha; cbn; split; compute_done.
Qed.

Lemma friends_lockstep : lockstep friends.
Proof.
  intros a b ua ub Ha Hb. unfold friends in Ha, Hb.
  stored Ha; stored Hb; cbn; compute_done.
Qed.

Example scenario_follow :
  let r := run (@followUser hex24 (mkRequest idA idB)) no_faults strangers in
  status_of (outcome r) = Some 200 ∧
  listed "followers" (outcome (run (@getFollowers hex24 idB) no_faults (store r)))
  = [project ["username"; "email"; "profile"] idA alice] ∧
  listed "following" (outcome (run (@getFollowing hex24 idA) no_faults (store r)))
  = [project ["username"; "email"; "profile"] idB bob].
Proof. cbv zeta. split_and!; vm_compute; reflexivity. Qed.

Example scenario_unfollow :
  let r1 := run (@followUser hex24 (mkRequest idA idB)) no_faults strangers in
  let r2 := run (@unfollowUser hex24 (mkRequest idA idB)) no_faults (store r1) in
  status_of (outcome r2) = Some 200 ∧
  listed "followers" (outcome (run (@getFollowers hex24 idB) no_faults (store r2))) = [] ∧
  listed "following" (outcome (run (@getFollowing hex24 idA) no_faults (store r2))) = [].
Proof. cbv zeta. split_and!; vm_compute; reflexivity. Qed.

(** C4, counterexample. A request with a malformed target identifier is
    answered 400 "Invalid user ID" after the session and its transaction
    were opened: the transaction is opened before validation, in followUser
    and in unfollowUser. *)
Lemma transaction_opened_before_validation :
  let r := run (@followUser hex24 (mkRequest idA "not-an-id")) no_faults strangers in
  let r' := run (@unfollowUser hex24 (mkRequest idA "not-an-id")) no_faults strangers in
  outcome r = Responded 400 (JObj [("success", JBool false);
                                   ("message", JStr "Invalid user ID")]) ∧
  trace r = [EvStartSession; EvStartTransaction; EvRespond 400] ∧
  outcome r' = outcome r ∧ trace r' = trace r ∧
  (¬ (EvStartTransaction ∉ trace r)) ∧ (¬ (EvStartTransaction ∉ trace r')).
Proof.
  cbv zeta. split_and!; try (vm_compute; reflexivity).
  - intros Hno. apply Hno. vm_compute. apply list_elem_of_further, list_elem_of_here.
  - intros Hno. apply Hno. vm_compute. apply list_elem_of_further, list_elem_of_here.
Qed.

(** C7, counterexample. The summaries of bob's followers carry the field
    _id next to username, email and profile. *)
Lemma summary_carries_id :
  let r := run (@getFollowers hex24 idB) no_faults friends in
  listed "followers" (outcome r)
  = [ JObj [ ("_id", JStr idC); ("username", JStr "carol");
             ("email", JStr "carol@example.com");
             ("profile", JObj [("imageUrl", JStr default_imageUrl)]) ];
      JObj [ ("_id", JStr idA); ("username", JStr "alice");
             ("email", JStr "alice@example.com");
             ("profile", JObj [("imageUrl", JStr default_imageUrl)]) ] ] ∧
  ¬ (∀ j, j ∈ listed "followers" (outcome r) →
          ∀ k, k ∈ keys j → k ∈ ["username"; "email"; "profile"]).
Proof.
  cbv zeta. split; [vm_compute; reflexivity|].
  intros Hall.
  specialize (Hall (project ["username"; "email"; "profile"] idC (person "carol" [] [idB]))).
  assert (Hid : "_id" ∈ ["username"; "email"; "profile"]).
  { apply Hall; [|apply list_elem_of_here].
    vm_compute. apply list_elem_of_here. }
  repeat (apply elem_of_cons in Hid as [Hid|Hid]; [discriminate Hid|]).
  by apply elem_of_nil in Hid.
Qed.

(** *** The string comparisons of the controller at another spelling *)

(** C1. followUser called twice with the target identifier in upper-case
    hexadecimal digits: the driver accepts the string and casts it to the
    identifier of bob, the array test compares the string as sent with the
    stored spelling and finds nothing, so both calls answer 200 and the
    edge is stored twice on both documents. With the identifier spelled as
    the store spells it, the second call answers 409 and changes nothing. *)
Theorem followUser_twice_other_spelling :
  let r1 := run (@followUser hex24 (mkRequest idA idB_upper)) no_faults strangers in
  let r2 := run (@followUser hex24 (mkRequest idA idB_upper)) no_faults (store r1) in
  let s1 := run (@followUser hex24 (mkRequest idA idB)) no_faults strangers in
  let s2 := run (@followUser hex24 (mkRequest idA idB)) no_faults (store s1) in
  (idA ≠ idB ∧ strangers !! idA = Some alice ∧ strangers !! idB = Some bob ∧
   @isValidObjectId hex24 idB_upper = true ∧ @castObjectId hex24 idB_upper = Some idB) ∧
  (status_of (outcome r1) = Some 200 ∧ status_of (outcome r2) = Some 200 ∧
   store r2 !! idA = Some (person "alice" [] [idB; idB]) ∧
   store r2 !! idB = Some (person "bob" [idA; idA] [])) ∧
  (status_of (outcome s1) = Some 200 ∧ status_of (outcome s2) = Some 409 ∧
   store s2 = store s1 ∧
   store s2 !! idA = Some (person "alice" [] [idB]) ∧
   store s2 !! idB = Some (person "bob" [idA] [])).
Proof.
  cbv zeta. split_and!; try (vm_compute; reflexivity). exact idA_idB.
Qed.

(** C3. followUser with the caller's own identifier in upper-case
    hexadecimal digits: the test [myId === targetUserId] compares the
    strings and lets the request pass, both queries return alice, and the
    answer is 200 with alice stored in her own following and followers
    arrays. The pre-validate hook of the Follow model, which compares
    identifiers, rejects the same pair. *)
Theorem followUser_self_other_spelling :
  let r := run (@followUser hex24 (mkRequest idA idA_upper)) no_faults strangers in
  (strangers !! idA = Some alice ∧
   @isValidObjectId hex24 idA_upper = true ∧ @castObjectId hex24 idA_upper = Some idA) ∧
  (outcome r = Responded 200 (JObj [("success", JBool true);
                                    ("message", JStr "User followed successfully")]) ∧
   store r !! idA = Some (person "alice" [idA] [idA])) ∧
  (outcome (run (@followUser hex24 (mkRequest idA idA)) no_faults strangers)
   = Responded 400 (JObj [("success", JBool false);
                          ("message", JStr "You cannot follow yourself")])) ∧
  (FollowModel.followUser (@castObjectId hex24 idA) (@castObjectId hex24 idA_upper) []
   = (Throw (JsError "User cannot follow themselves"), [])).
Proof. cbv zeta. split_and!; vm_compute; reflexivity. Qed.

(** C6. The round trip with the target identifier in upper-case
    hexadecimal digits, on a collection where alice follows bob: the filter
    of unfollowUser compares [id.toString()] with the string as sent and
    removes nothing from alice's following array (the caller is removed
    from bob's followers), and followUser then appends bob once more. Both
    calls answer 200 and alice's following array holds bob twice. With the
    identifier spelled as the store spells it the edge is there once. *)
Theorem unfollow_follow_other_spelling :
  let r1 := run (@unfollowUser hex24 (mkRequest idA idB_upper)) no_faults friends in
  let r2 := run (@followUser hex24 (mkRequest idA idB_upper)) no_faults (store r1) in
  let s1 := run (@unfollowUser hex24 (mkRequest idA idB)) no_faults friends in
  let s2 := run (@followUser hex24 (mkRequest idA idB)) no_faults (store s1) in
  (friends !! idA = Some (person "alice" [] [idB]) ∧
   friends !! idB = Some (person "bob" [idC; idA] []) ∧
   @isValidObjectId hex24 idB_upper = true ∧ @castObjectId hex24 idB_upper = Some idB) ∧
  (status_of (outcome r1) = Some 200 ∧ status_of (outcome r2) = Some 200 ∧
   store r1 !! idA = Some (person "alice" [] [idB]) ∧
   store r1 !! idB = Some (person "bob" [idC] []) ∧
   store r2 !! idA = Some (person "alice" [] [idB; idB]) ∧
   store r2 !! idB = Some (person "bob" [idC; idA] []) ∧
   occurrences idB [idB; idB] = 2) ∧
  (status_of (outcome s1) = Some 200 ∧ status_of (outcome s2) = Some 200 ∧
   store s2 !! idA = Some (person "alice" [] [idB]) ∧
   store s2 !! idB = Some (person "bob" [idC; idA] [])).
Proof. cbv zeta. split_and!; vm_compute; reflexivity. Qed.

(** C10. unfollowUser with the target identifier in upper-case
    hexadecimal digits, on a collection where alice follows bob: the answer
    is 200 and bob is still in alice's following array, because the filter
    compares [id.toString()] with the string as sent; alice is removed from
    bob's followers. With the identifier spelled as the store spells it bob
    is removed. *)
Theorem unfollowUser_other_spelling_keeps_edge :
  let r := run (@unfollowUser hex24 (mkRequest idA idB_upper)) no_faults friends in
  let s := run (@unfollowUser hex24 (mkRequest idA idB)) no_faults friends in
  (friends !! idA = Some (person "alice" [] [idB]) ∧
   friends !! idB = Some (person "bob" [idC; idA] []) ∧
   @isValidObjectId hex24 idB_upper = true ∧ @castObjectId hex24 idB_upper = Some idB) ∧
  (outcome r = Responded 200 (JObj [("success", JBool true);
                                    ("message", JStr "User unfollowed successfully")]) ∧
   store r !! idA = Some (person "alice" [] [idB]) ∧
   store r !! idB = Some (person "bob" [idC] []) ∧
   idB ∈ [idB]) ∧
  (outcome s = outcome r ∧
   store s !! idA = Some (person "alice" [] []) ∧
   store s !! idB = Some (person "bob" [idC] [])).
Proof.
  cbv zeta. split_and!; try (vm_compute; reflexivity). apply list_elem_of_here.
Qed.

(** C8. followUser decides "already following" from the caller's following
    array alone: replacing the followers array of any stored user changes no
    response; and from a collection where B lists A as a follower while A's
    following array does not hold the target, followUser answers 200 and
    appends one more occurrence of A to B's followers. The handlers do not
    keep the arrays duplicate-free: on the collection [friends], whose
    arrays are duplicate-free and in lockstep, followUser with bob's
    identifier in upper-case hexadecimal digits answers 200 and leaves bob
    twice in alice's following array. *)
Theorem followUser_trusts_following_array :
  (∀ (D : Driver) (f : Faults) (req : Request) (users : gmap string User)
     (k : ObjectId) (l : list ObjectId),
     outcome (run (@followUser D req) f (alter (set_followers l) k users))
     = outcome (run (@followUser D req) f users)) ∧
  (duplicate_free friends ∧ lockstep friends ∧
   let r := run (@followUser hex24 (mkRequest idA idB_upper)) no_faults friends in
   status_of (outcome r) = Some 200 ∧
   store r !! idA = Some (person "alice" [] [idB; idB]) ∧
   ¬ duplicate_free (store r)) ∧
  (∀ (D : Driver) (me target : string) (A B : ObjectId) (ua ub : User)
     (users : gmap string User),
     @castObjectId D me = Some A → @castObjectId D target = Some B →
     me ≠ target → @isValidObjectId D target = true →
     users !! A = Some ua → users !! B = Some ub →
     A ∈ followers ub → target ∉ following ua →
     let r := run (@followUser D (mkRequest me target)) no_faults users in
     status_of (outcome r) = Some 200 ∧
     ∃ ub', store r !! B = Some ub' ∧
            followers ub' = followers ub ++ [A] ∧
            occurrences A (followers ub') = S (occurrences A (followers ub)) ∧
            (2 ≤ occurrences A (followers ub'))%nat).
Proof.
  split; [|split].
  - intros D f req users k l. apply followers_array_unused.
  - assert (Hstored : store (run (@followUser hex24 (mkRequest idA idB_upper))
                                 no_faults friends) !! idA
                      = Some (person "alice" [] [idB; idB]))
      by (vm_compute; reflexivity).
    split; [exact friends_duplicate_free|]. split; [exact friends_lockstep|].
    cbv zeta. split_and!; [vm_compute; reflexivity | exact Hstored |].
    intros Hdup. destruct (Hdup _ _ Hstored) as [_ Hnd].
    apply NoDup_cons in Hnd as [Hnot _]. apply Hnot, list_elem_of_here.
  - intros D. apply followUser_out_of_lockstep.
Qed.

(** *** Instances of the theorems on the scenario *)

Lemma followUser_all_or_nothing_witness :
  let r := run (@followUser hex24 (mkRequest idA idB))
               (λ op, match op with OpSaveTarget => true | _ => false end) strangers in
  (status_of (outcome r) ≠ Some 200) ∧ store r = strangers.
Proof.
  cbv zeta.
  assert (Hcode : status_of (outcome (run (@followUser hex24 (mkRequest idA idB))
            (λ op, match op with OpSaveTarget => true | _ => false end) strangers))
          ≠ Some 200) by (vm_compute; discriminate).
  split; [exact Hcode|].
  exact (proj1 (@followUser_all_or_nothing hex24
    (λ op, match op with OpSaveTarget => true | _ => false end)
    (mkRequest idA idB) strangers) Hcode).
Defined.

Lemma validation_inside_transaction_witness :
  let r := run (@followUser hex24 (mkRequest idA idC)) no_faults strangers in
  404 ≠ 200 ∧
  ∃ reads, trace r = EvStartSession :: EvStartTransaction :: reads ++ [EvRespond 404]
           ∧ forallb is_read reads = true.
Proof.
  cbv zeta.
  assert (Hcode : 404 ≠ 200) by lia.
  split; [exact Hcode|].
  refine (proj1 (@validation_inside_transaction hex24 no_faults (mkRequest idA idC)
                   strangers 404
                   (JObj [("success", JBool false); ("message", JStr "User not found")])
                   Hcode) _).
  vm_compute. reflexivity.
Defined.

Lemma unfollowUser_absent_edge_noop_witness :
  let r := run (@unfollowUser hex24 (mkRequest idA idB_upper)) no_faults strangers in
  @castObjectId hex24 idA = Some idA ∧ @castObjectId hex24 idB_upper = Some idB ∧
  (idB_upper ∉ following alice) ∧ (idA ∉ followers bob) ∧
  outcome r = Responded 200 (JObj [("success", JBool true);
                                   ("message", JStr "User unfollowed successfully")]) ∧
  store r = strangers.
Proof.
  cbv zeta.
  assert (HA : strangers !! idA = Some alice) by (vm_compute; reflexivity).
  assert (HB : strangers !! idB = Some bob) by (vm_compute; reflexivity).
  destruct (@unfollowUser_absent_edge_noop hex24 idA idB_upper idA idB alice bob strangers
              eq_refl eq_refl eq_refl HA HB (nobody idB_upper) (nobody idA))
    as [Hout Hstore].
  exact (conj eq_refl (conj eq_refl (conj (nobody idB_upper) (conj (nobody idA)
           (conj Hout Hstore))))).
Defined.

Lemma list_endpoints_hide_password_witness :
  same_public friends (set_password "secret" <$> friends) ∧
  outcome (run (@getFollowers hex24 idB) no_faults friends)
  = outcome (run (@getFollowers hex24 idB) no_faults (set_password "secret" <$> friends)).
Proof.
  assert (Hsame : same_public friends (set_password "secret" <$> friends)).
  { intros id. rewrite lookup_fmap. by destruct (friends !! id) as [[]|]. }
  split; [exact Hsame|].
  exact (proj1 (@list_endpoints_hide_password hex24 no_faults idB friends
                  (set_password "secret" <$> friends) Hsame)).
Defined.

Lemma followUser_trusts_following_array_witness :
  let r := run (@followUser hex24 (mkRequest idA idB)) no_faults skewed in
  idA ∈ [idA] ∧ (idB ∉ following (person "alice" [] [])) ∧
  status_of (outcome r) = Some 200 ∧
  ∃ ub', store r !! idB = Some ub' ∧ followers ub' = [idA; idA].
Proof.
  cbv zeta.
  assert (H1 : idA ∈ [idA]) by apply list_elem_of_here.
  assert (HA : skewed !! idA = Some (person "alice" [] [])) by (vm_compute; reflexivity).
  assert (HB : skewed !! idB = Some (person "bob" [idA] [])) by (vm_compute; reflexivity).
  destruct (proj2 (proj2 followUser_trusts_following_array)
              hex24 idA idB idA idB (person "alice" [] []) (person "bob" [idA] []) skewed
              eq_refl eq_refl idA_idB eq_refl HA HB H1 (nobody idB))
    as (Hout & ub' & Hub' & Hfrs & _).
  refine (conj H1 (conj (nobody idB) (conj Hout _))).
  exists ub'. exact (conj Hub' Hfrs).
Defined.



(** * Further properties of the follow controller *)

Lemma without_push (x : ObjectId) (l : list ObjectId) :
  x ∉ l → without x (l ++ [x]) = l.
Proof.
  intros Hx. unfold without. rewrite List.filter_app. cbn [List.filter].
  rewrite String.eqb_refl. cbn [negb]. rewrite app_nil_r. by apply without_absent.
Qed.

Lemma without_without (x : ObjectId) (l : list ObjectId) :
  without x (without x l) = without x l.
Proof. apply without_absent. rewrite elem_of_without. tauto. Qed.

Lemma unfollowed_followed (A B : ObjectId) (ua ub : User) (users : gmap string User) :
  A ≠ B → users !! A = Some ua → users !! B = Some ub →
  B ∉ following ua → A ∉ followers ub →
  unfollowed A B A B (followed A B users) = users.
Proof.
  intros HAB HA HB HnoB HnoA. unfold unfollowed, followed.
  apply map_eq. intros i. rewrite !lookup_alter.
  repeat case_decide; simplify_eq; rewrite ?HA, ?HB; cbn -[without];
    rewrite ?without_push by done; try done.
  all: try (by destruct ua); try (by destruct ub); try (by destruct (users !! i)).
Qed.

Lemma unfollowed_idempotent (me target : string) (A B : ObjectId)
    (users : gmap string User) :
  unfollowed me target A B (unfollowed me target A B users)
  = unfollowed me target A B users.
Proof.
  apply map_eq. intros i. unfold unfollowed. rewrite !lookup_alter.
  repeat case_decide; simplify_eq;
    match goal with |- context [users !! ?k] => destruct (users !! k) as [[]|] end;
    cbn -[without]; try done;
    unfold set_followers, set_following; cbn -[without]; by rewrite ?without_without.
Qed.

Section Kept.
Context `{Driver}.

Lemma followed_kept (me target : string) (A B : ObjectId) (users : gmap string User) :
  castObjectId me = Some A → castObjectId target = Some B →
  kept me target users (followed A B users).
Proof.
  intros HcA HcB i. unfold followed. rewrite !lookup_alter, HcA, HcB.
  destruct (users !! i) as [u|] eqn:Hi; repeat case_decide; simplify_eq;
    rewrite ?Hi; cbn; try done; by split_and!.
Qed.

Lemma unfollowed_kept (me target : string) (A B : ObjectId) (users : gmap string User) :
  castObjectId me = Some A → castObjectId target = Some B →
  kept me target users (unfollowed me target A B users).
Proof.
  intros HcA HcB i. unfold unfollowed. rewrite !lookup_alter, HcA, HcB.
  destruct (users !! i) as [u|] eqn:Hi; repeat case_decide; simplify_eq;
    rewrite ?Hi; cbn; try done; by split_and!.
Qed.

Lemma kept_refl (me target : string) (users : gmap string User) :
  kept me target users users.
Proof. intros i. destruct (users !! i); [|done]. by split_and!. Qed.

End Kept.

Lemma restored_refl (users : gmap string User) : restored users users.
Proof. intros i. destruct (users !! i); [|done]. by split_and!. Qed.

Lemma listed_ids (users : gmap string User) (refs : list ObjectId) :
  omap summary_id (summaries users refs)
  = filter (λ x, is_Some (users !! x)) refs.
Proof.
  unfold summaries. induction refs as [|x refs IH]; [done|].
  cbn [omap list_omap]. rewrite filter_cons.
  destruct (users !! x) as [u|] eqn:Hx; cbn [fmap option_fmap option_map].
  - rewrite decide_True by done. cbn [omap list_omap].
    change (summary_id (project ["username"; "email"; "profile"] x u)) with (Some x).
    cbn. by f_equal.
  - rewrite decide_False by (by intros [? ?]). done.
Qed.

Lemma summaries_length (users : gmap string User) (refs : list ObjectId) :
  (length (summaries users refs) ≤ length refs)%nat.
Proof.
  unfold summaries. induction refs as [|x refs IH]; [done|].
  cbn [omap list_omap]. destruct (_ <$> users !! x); cbn; lia.
Qed.

Lemma summaries_followed (A B : ObjectId) (users : gmap string User)
    (refs : list ObjectId) :
  summaries (followed A B users) refs = summaries users refs.
Proof.
  apply summaries_public.
  - intros id u'. unfold followed. rewrite !lookup_alter.
    destruct (users !! id) as [u|] eqn:Hu; repeat case_decide; simplify_eq;
      rewrite ?Hu; cbn; intros Hid; simplify_eq; by eexists.
  - intros id. unfold followed. rewrite !lookup_alter.
    destruct (users !! id) as [u|] eqn:Hu; repeat case_decide; simplify_eq;
      rewrite ?Hu; cbn; intros Hid; by simplify_eq.
Qed.

Section MoreFollow.
Context `{Driver}.

(** X1. Following and then unfollowing undoes itself. For two users A and
    B with no trace of the edge, and a request that spells both identifiers
    as the store spells them, followUser(A, B) followed by unfollowUser(A,
    B) both answer 200, and afterwards the same users are stored, each with
    the account paths and the two arrays it had before the two calls. *)
Theorem follow_unfollow_restores (A B : ObjectId) (ua ub : User) (users : gmap string User) :
  castObjectId A = Some A → castObjectId B = Some B →
  A ≠ B → isValidObjectId B = true →
  users !! A = Some ua → users !! B = Some ub →
  B ∉ following ua → A ∉ followers ub →
  let r1 := run (followUser (mkRequest A B)) no_faults users in
  let r2 := run (unfollowUser (mkRequest A B)) no_faults (store r1) in
  status_of (outcome r1) = Some 200 ∧ status_of (outcome r2) = Some 200 ∧
  restored users (store r2).
Proof.
  intros HcA HcB HAB Hvalid HA HB HnoB HnoA. cbv zeta.
  destruct (followUser_ok A B A B ua ub users HcA HcB HAB Hvalid HA HB HnoB)
    as [Hout1 Hstore1].
  rewrite Hstore1, Hout1.
  destruct (followed_lookup_me A B ua users HA) as (ua1 & HA1 & _).
  destruct (followed_lookup_target A B ub users HB) as (ub1 & HB1 & _).
  destruct (unfollowUser_ok A B A B ua1 ub1 _ HcA HcB Hvalid HA1 HB1) as [Hout2 Hstore2].
  rewrite Hout2, Hstore2. split_and!; [done | done |].
  rewrite (unfollowed_followed A B ua ub users) by done. apply restored_refl.
Qed.

(** X2. unfollowUser is idempotent on the collection: for existing users,
    whatever the arrays hold (duplicates, a caller equal to the target) and
    however the request spells the two identifiers, a second unfollowUser
    answers 200 again and leaves the collection as the first one left it. *)
Theorem unfollowUser_idempotent (me target : string) (A B : ObjectId) (ua ub : User)
    (users : gmap string User) :
  castObjectId me = Some A → castObjectId target = Some B →
  isValidObjectId target = true →
  users !! A = Some ua → users !! B = Some ub →
  let r1 := run (unfollowUser (mkRequest me target)) no_faults users in
  let r2 := run (unfollowUser (mkRequest me target)) no_faults (store r1) in
  status_of (outcome r1) = Some 200 ∧ status_of (outcome r2) = Some 200 ∧
  store r2 = store r1.
Proof.
  intros HcA HcB Hvalid HA HB. cbv zeta.
  destruct (unfollowUser_ok me target A B ua ub users HcA HcB Hvalid HA HB)
    as [Hout1 Hstore1].
  rewrite Hstore1, Hout1.
  destruct (unfollowed_lookup_me me target A B ua users HA) as (ua1 & HA1 & _).
  destruct (unfollowed_lookup_target me target A B ub users HB) as (ub1 & HB1 & _).
  destruct (unfollowUser_ok me target A B ua1 ub1 _ HcA HcB Hvalid HA1 HB1)
    as [Hout2 Hstore2].
  rewrite Hout2, Hstore2. split_and!; [done | done |].
  apply unfollowed_idempotent.
Qed.

(** X3. The mutating handlers touch nothing but the edge: after any run
    of followUser or unfollowUser (any request, any failing store
    operation) the same users are stored, each with the username, email,
    password, bio and profile it had; the following array can differ for the
    caller only and the followers array for the target only. *)
Theorem mutations_keep_accounts (f : Faults) (req : Request) (users : gmap string User) :
  kept (user_id req) (params_userId req) users (store (run (followUser req) f users)) ∧
  kept (user_id req) (params_userId req) users (store (run (unfollowUser req) f users)).
Proof.
  destruct req as [me target]. cbn [user_id params_userId]. split.
  - destruct (followUser_runs f me target users)
      as [(_ & -> & _) | (A & B & ua & ub & HcA & HcB & _ & _ & _ & _ & _ & _ & -> & _)].
    + apply kept_refl.
    + by apply followed_kept.
  - destruct (unfollowUser_runs f me target users)
      as [(_ & -> & _) | (A & B & ua & ub & HcA & HcB & _ & _ & _ & _ & -> & _)].
    + apply kept_refl.
    + by apply unfollowed_kept.
Qed.

(** X4. How followUser and unfollowUser leave their session. A 200 answer
    comes with the transaction committed and the session ended. An error
    handed to next comes with the transaction aborted and the session ended.
    Every other answer (400, 404, 409) is returned with the transaction
    still open and the session not ended, the collection unchanged. A
    rejected run has committed nothing. *)
Theorem session_lifecycle (f : Faults) (req : Request) (users : gmap string User) :
  lifecycle users (run (followUser req) f users) ∧
  lifecycle users (run (unfollowUser req) f users).
Proof.
  destruct req as [me target]. unfold lifecycle.
  split; exec_all; cbv [Nat.eqb]; by split_and!.
Qed.

(** X5. getFollowers and getFollowing only read: whatever the request and
    whatever fails, the collection is unchanged, no session is opened, and
    the only events are reads, the response or the error handed to next. *)
Theorem list_endpoints_read_only (f : Faults) (userId : string) (users : gmap string User) :
  let r := run (getFollowers userId) f users in
  let r' := run (getFollowing userId) f users in
  (store r = users ∧ session r = TxnNone ∧ forallb quiet (trace r) = true) ∧
  (store r' = users ∧ session r' = TxnNone ∧ forallb quiet (trace r') = true).
Proof. cbv zeta. split; exec_all; by split_and!. Qed.

(** X6. In a 200 answer of getFollowers and of getFollowing the total is
    the length of the returned list, and the list holds, in array order,
    the summaries of exactly those references that name a stored user:
    references to users that no longer exist are dropped, so the list is
    never longer than the stored array. *)
Theorem list_total_counts_existing (f : Faults) (userId : string) (users : gmap string User) :
  let o := outcome (run (getFollowers userId) f users) in
  let o' := outcome (run (getFollowing userId) f users) in
  (status_of o = Some 200 →
   ∃ id u, castObjectId userId = Some id ∧ users !! id = Some u ∧
        total_of o = Some (length (listed "followers" o)) ∧
        omap summary_id (listed "followers" o)
        = filter (λ x, is_Some (users !! x)) (followers u) ∧
        (length (listed "followers" o) ≤ length (followers u))%nat) ∧
  (status_of o' = Some 200 →
   ∃ id u, castObjectId userId = Some id ∧ users !! id = Some u ∧
        total_of o' = Some (length (listed "following" o')) ∧
        omap summary_id (listed "following" o')
        = filter (λ x, is_Some (users !! x)) (following u) ∧
        (length (listed "following" o') ≤ length (following u))%nat).
Proof.
  cbv zeta. rewrite getFollowers_outcome, getFollowing_outcome.
  destruct (negb (isValidObjectId userId)); [by split|].
  destruct (castObjectId userId) as [id|]; [|by split].
  destruct (f OpFindTarget), (f OpPopulate),
    (users !! id) as [u|] eqn:Hu; split; try done; intros _; exists id, u;
    (split; [reflexivity|]); (split; [exact Hu|]); (split; [reflexivity|]);
    (split; [apply listed_ids | apply summaries_length]).
Qed.

(** X7. A successful follow shows at the end of both lists: after
    followUser answers 200 for a caller A and a target B (however the
    request spells them), getFollowers(B) returns the list it returned
    before with A's summary appended, and getFollowing(A) the list it
    returned before with B's summary appended. *)
Theorem follow_shows_in_lists (me target : string) (A B : ObjectId) (ua ub : User)
    (users : gmap string User) :
  castObjectId me = Some A → castObjectId target = Some B →
  me ≠ target → isValidObjectId me = true → isValidObjectId target = true →
  users !! A = Some ua → users !! B = Some ub → target ∉ following ua →
  let r := run (followUser (mkRequest me target)) no_faults users in
  listed "followers" (outcome (run (getFollowers target) no_faults (store r)))
  = listed "followers" (outcome (run (getFollowers target) no_faults users))
    ++ [project ["username"; "email"; "profile"] A ua] ∧
  listed "following" (outcome (run (getFollowing me) no_faults (store r)))
  = listed "following" (outcome (run (getFollowing me) no_faults users))
    ++ [project ["username"; "email"; "profile"] B ub].
Proof.
  intros HcA HcB HAB HvA HvB HA HB Hfresh. cbv zeta.
  destruct (followUser_ok me target A B ua ub users HcA HcB HAB HvB HA HB Hfresh) as [_ ->].
  rewrite !getFollowers_outcome, !getFollowing_outcome, HvA, HvB, HcA, HcB.
  destruct (followed_lookup_me A B ua users HA) as (ua1 & HA1 & Fa & _).
  destruct (followed_lookup_target A B ub users HB) as (ub1 & HB1 & Fb & _).
  rewrite HA, HB, HA1, HB1. cbn [negb no_faults].
  change (listed "followers" (Responded 200 (JObj
            [("success", JBool true); ("followers", JArr ?l); ("total", ?n)])))
    with l.
  change (listed "following" (Responded 200 (JObj
            [("success", JBool true); ("following", JArr ?l); ("total", ?n)])))
    with l.
  rewrite Fa, Fb, !summaries_followed.
  unfold summaries. rewrite !omap_app. cbn [omap list_omap]. rewrite HA, HB. done.
Qed.

(** X8. Order of the checks. With the session open, a malformed target is
    answered 400 "Invalid user ID" by both handlers, and a target string
    that is character for character the caller's string is answered 400
    "You cannot follow yourself" by followUser, both without any read of the
    collection, so the caller need not even exist; when both identifiers
    cast and one of them names no stored user, the answer is 404 by both
    handlers once both reads succeeded. In all these cases the collection
    is unchanged. *)
Theorem validation_order (f : Faults) (req : Request) (users : gmap string User) :
  f OpStartSession = false → f OpStartTransaction = false →
  let r := run (followUser req) f users in
  let r' := run (unfollowUser req) f users in
  (isValidObjectId (params_userId req) = false →
   outcome r = Responded 400 (JObj [("success", JBool false);
                                    ("message", JStr "Invalid user ID")]) ∧
   outcome r' = outcome r ∧
   trace r = [EvStartSession; EvStartTransaction; EvRespond 400] ∧
   trace r' = trace r) ∧
  (isValidObjectId (params_userId req) = true → user_id req = params_userId req →
   outcome r = Responded 400 (JObj [("success", JBool false);
                                    ("message", JStr "You cannot follow yourself")]) ∧
   trace r = [EvStartSession; EvStartTransaction; EvRespond 400]) ∧
  (∀ A B,
     isValidObjectId (params_userId req) = true →
     castObjectId (user_id req) = Some A → castObjectId (params_userId req) = Some B →
     f OpFindMe = false → f OpFindTarget = false →
     users !! A = None ∨ users !! B = None →
     outcome r' = Responded 404 (JObj [("success", JBool false);
                                       ("message", JStr "User not found")]) ∧
     (user_id req ≠ params_userId req → outcome r = outcome r')) ∧
  (status_of (outcome r) = Some 400 ∨ status_of (outcome r) = Some 404 →
   store r = users) ∧
  (status_of (outcome r') = Some 400 ∨ status_of (outcome r') = Some 404 →
   store r' = users).
Proof.
  destruct req as [me target]. cbn [user_id params_userId]. intros Hs Ht. cbv zeta.
  split_and!.
  - intros Hbad. exec. rewrite Hs, Ht. exec. rewrite Hbad. by exec.
  - intros Hok ->. exec. rewrite Hs, Ht. exec. rewrite Hok. exec.
    rewrite String.eqb_refl. by exec.
  - intros A B Hok HcA HcB Hf1 Hf2 Hmissing. exec. rewrite Hs, Ht. exec. rewrite Hok. exec.
    rewrite HcA, HcB. exec. rewrite Hf1, Hf2. exec. split.
    + destruct (users !! A) eqn:E1, (users !! B) eqn:E2; exec; exec;
        try reflexivity; destruct Hmissing as [[=]|[=]].
    + intros Hne%String.eqb_neq.
      repeat (progress (rewrite ?Hne, ?HcA, ?HcB, ?Hf1, ?Hf2); exec).
      destruct (users !! A) eqn:E1, (users !! B) eqn:E2; exec; exec;
        try reflexivity; destruct Hmissing as [[=]|[=]].
  - intros Hcode.
    destruct (followUser_runs f me target users)
      as [(_ & Hstore & _) | (A & B & ua & ub & _ & _ & _ & _ & _ & _ & _ & Hout & _)];
      [done|].
    rewrite Hout in Hcode. by destruct Hcode.
  - intros Hcode.
    destruct (unfollowUser_runs f me target users)
      as [(_ & Hstore & _) | (A & B & ua & ub & _ & _ & _ & _ & _ & Hout & _)]; [done|].
    rewrite Hout in Hcode. by destruct Hcode.
Qed.

End MoreFollow.

(** * Further properties of the Follow model (normalized variant) *)

Lemma isFollowing_true (a b : ObjectId) (rows : FollowModel.Follows) :
  FollowModel.isFollowing a b rows = true ↔ (a, b) ∈ rows.
Proof.
  unfold FollowModel.isFollowing. rewrite existsb_exists. split.
  - intros (row & Hin & ->%same_edge_true). by apply list_elem_of_In.
  - intros Hin. exists (a, b). split; [by apply list_elem_of_In | apply same_edge_refl].
Qed.

Lemma isFollowing_false (a b : ObjectId) (rows : FollowModel.Follows) :
  FollowModel.isFollowing a b rows = false ↔ (a, b) ∉ rows.
Proof.
  rewrite <- isFollowing_true.
  destruct (FollowModel.isFollowing a b rows); split; congruence.
Qed.

(** Every way [followUser] of the model can end. *)
Lemma create_cases (x y : option ObjectId) (rows : FollowModel.Follows) :
  (∃ e, FollowModel.followUser x y rows = (Throw e, rows)) ∨
  (∃ a b, x = Some a ∧ y = Some b ∧ a ≠ b ∧
          FollowModel.isFollowing a b rows = false ∧
          FollowModel.followUser x y rows = (Ok (a, b), rows ++ [(a, b)])).
Proof.
  unfold FollowModel.followUser, FollowModel.create, FollowModel.pre_validate,
    FollowModel.validate, FollowModel.isFollowing.
  cbn [FollowModel.follower FollowModel.following].
  destruct x as [a|], y as [b|]; try (left; by eexists).
  destruct (String.eqb_spec a b) as [->|Hab]; [left; by eexists|].
  destruct (existsb (FollowModel.same_edge a b) rows) eqn:Hex; [left; by eexists|].
  right. by exists a, b.
Qed.

Lemma remove_first_absent (a b : ObjectId) (rows : FollowModel.Follows) :
  FollowModel.isFollowing a b rows = false →
  FollowModel.remove_first a b rows = (0, rows).
Proof.
  unfold FollowModel.isFollowing.
  induction rows as [|row rows IH]; [done|]. cbn [existsb FollowModel.remove_first].
  intros [E1 E2]%orb_false_iff. by rewrite E1, IH.
Qed.

Lemma remove_first_pushed (a b : ObjectId) (rows : FollowModel.Follows) :
  FollowModel.isFollowing a b rows = false →
  FollowModel.remove_first a b (rows ++ [(a, b)]) = (1, rows).
Proof.
  unfold FollowModel.isFollowing.
  induction rows as [|row rows IH]; cbn [existsb FollowModel.remove_first app].
  - intros _. by rewrite same_edge_refl.
  - intros [E1 E2]%orb_false_iff. by rewrite E1, IH.
Qed.

Lemma remove_first_elem (a b : ObjectId) (rows : FollowModel.Follows) (row : ObjectId * ObjectId) :
  row ∈ (FollowModel.remove_first a b rows).2 → row ∈ rows.
Proof.
  induction rows as [|r rows IH]; [done|]. cbn [FollowModel.remove_first].
  destruct (FollowModel.same_edge a b r).
  - cbn. apply list_elem_of_further.
  - destruct (FollowModel.remove_first a b rows) as [n rest]. cbn in *.
    intros [->|Hin]%elem_of_cons; [apply list_elem_of_here|].
    by apply list_elem_of_further, IH.
Qed.

Lemma remove_first_other (a b : ObjectId) (rows : FollowModel.Follows) (row : ObjectId * ObjectId) :
  row ≠ (a, b) → row ∈ rows → row ∈ (FollowModel.remove_first a b rows).2.
Proof.
  intros Hne. induction rows as [|r rows IH]; [done|]. cbn [FollowModel.remove_first].
  destruct (FollowModel.same_edge a b r) eqn:E.
  - apply same_edge_true in E as ->. cbn. intros [?|?]%elem_of_cons; done.
  - destruct (FollowModel.remove_first a b rows) as [n rest]. cbn in *.
    intros [->|Hin]%elem_of_cons; [apply list_elem_of_here|].
    by apply list_elem_of_further, IH.
Qed.

Lemma remove_first_NoDup (a b : ObjectId) (rows : FollowModel.Follows) :
  NoDup rows → NoDup (FollowModel.remove_first a b rows).2.
Proof.
  induction 1 as [|r rows Hr Hrows IH]; [constructor|]. cbn [FollowModel.remove_first].
  destruct (FollowModel.same_edge a b r); [done|].
  pose proof (remove_first_elem a b rows r) as Hsub.
  destruct (FollowModel.remove_first a b rows) as [n rest]. cbn in *.
  constructor; [tauto | done].
Qed.

Lemma remove_first_edges (a b c d : ObjectId) (rows : FollowModel.Follows) :
  FollowModel.edges c d (FollowModel.remove_first a b rows).2
  = if FollowModel.same_edge c d (a, b) then Nat.pred (FollowModel.edges c d rows)
    else FollowModel.edges c d rows.
Proof.
  unfold FollowModel.edges.
  induction rows as [|r rows IH].
  - cbn. by destruct (FollowModel.same_edge c d (a, b)).
  - cbn [FollowModel.remove_first].
    destruct (FollowModel.same_edge a b r) eqn:E.
    + apply same_edge_true in E as ->. cbn [snd List.filter].
      destruct (FollowModel.same_edge c d (a, b)); done.
    + destruct (FollowModel.remove_first a b rows) as [n rest]. cbn [snd] in *.
      cbn [List.filter].
      destruct (FollowModel.same_edge c d r) eqn:E'; [|done].
      cbn [length]. rewrite IH.
      destruct (FollowModel.same_edge c d (a, b)) eqn:E''; [|done].
      apply same_edge_true in E' as ->. apply same_edge_true in E''.
      injection E'' as -> ->. by rewrite same_edge_refl in E.
Qed.

Lemma remove_first_count (a b : ObjectId) (rows : FollowModel.Follows) :
  (FollowModel.remove_first a b rows).1
  = if FollowModel.isFollowing a b rows then 1 else 0.
Proof.
  unfold FollowModel.isFollowing.
  induction rows as [|r rows IH]; [done|]. cbn [FollowModel.remove_first existsb].
  destruct (FollowModel.same_edge a b r); [done|].
  destruct (FollowModel.remove_first a b rows) as [n rest]. cbn in *. done.
Qed.

(** X9. The follows collection stays within what the schema and its
    index admit: if no row is repeated and no row joins a user to itself,
    the same holds after followUser with any arguments (missing ones
    included) and after unfollowUser. *)
Theorem follows_stay_admissible (x y : option ObjectId) (a b : ObjectId)
    (rows : FollowModel.Follows) :
  admissible rows →
  admissible (FollowModel.followUser x y rows).2 ∧
  admissible (FollowModel.unfollowUser a b rows).2.
Proof.
  intros [Hdup Hself]. split.
  - destruct (create_cases x y rows)
      as [(e & ->) | (a' & b' & -> & -> & Hne & Hnew & ->)]; [done|].
    cbn [snd]. apply isFollowing_false in Hnew. split.
    + apply NoDup_app. split_and!; [done | | apply NoDup_singleton].
      intros row Hrow ->%list_elem_of_singleton. done.
    + intros c d [Hin | [= -> ->]%list_elem_of_singleton]%elem_of_app; [eauto | done].
  - unfold FollowModel.unfollowUser. split.
    + by apply remove_first_NoDup.
    + intros c d Hin%remove_first_elem. eauto.
Qed.

(** X10. followUser of the model succeeds only for two present, distinct
    identifiers whose edge is not yet stored, and then appends exactly that
    row; in every other case it throws and the collection is unchanged. A
    document with a missing path is never stored. *)
Theorem follow_document_created_only_when_new (x y : option ObjectId)
    (rows rows' : FollowModel.Follows) (res : Result (ObjectId * ObjectId)) :
  FollowModel.followUser x y rows = (res, rows') →
  match res with
  | Ok e =>
      ∃ a b, x = Some a ∧ y = Some b ∧ a ≠ b ∧ e = (a, b) ∧
             ((a, b) ∉ rows) ∧ rows' = rows ++ [(a, b)]
  | Throw _ => rows' = rows
  end.
Proof.
  destruct (create_cases x y rows)
    as [(e & ->) | (a & b & -> & -> & Hne & Hnew & ->)]; intros [= <- <-]; [done|].
  exists a, b. split_and!; try done. by apply isFollowing_false.
Qed.

(** X11. isFollowing tells whether the edge is stored, and the two
    statics set it: after followUser(a, b) for distinct a and b the edge is
    reported, whether the call created it or was refused as a duplicate;
    after unfollowUser(a, b) on a collection without repeated rows it is not
    reported; the answer for any other pair is unchanged by both. *)
Theorem isFollowing_tracks_the_edge (a b c d : ObjectId) (rows : FollowModel.Follows) :
  a ≠ b →
  FollowModel.isFollowing a b (FollowModel.followUser (Some a) (Some b) rows).2 = true ∧
  (NoDup rows →
   FollowModel.isFollowing a b (FollowModel.unfollowUser a b rows).2 = false) ∧
  ((c, d) ≠ (a, b) →
   FollowModel.isFollowing c d (FollowModel.followUser (Some a) (Some b) rows).2
   = FollowModel.isFollowing c d rows ∧
   FollowModel.isFollowing c d (FollowModel.unfollowUser a b rows).2
   = FollowModel.isFollowing c d rows).
Proof.
  intros Hab. split_and!.
  - destruct (FollowModel.isFollowing a b rows) eqn:Hex.
    + by rewrite (create_duplicate a b rows Hab Hex).
    + rewrite (create_fresh a b rows Hab Hex). apply recorded_edge.
  - intros Hdup. apply isFollowing_false. unfold FollowModel.unfollowUser.
    intros Hin. apply isFollowing_true in Hin.
    pose proof (remove_first_edges a b a b rows) as He. rewrite same_edge_refl in He.
    assert (FollowModel.edges a b rows ≤ 1)%nat as Hle.
    { destruct (existsb (FollowModel.same_edge a b) rows) eqn:Hex.
      - rewrite (edges_unique a b rows Hdup Hex). lia.
      - rewrite (edges_absent a b rows Hex). lia. }
    pose proof (remove_first_NoDup a b rows Hdup) as Hdup'.
    rewrite (edges_unique a b _ Hdup' Hin) in He. lia.
  - intros Hcd. split.
    + destruct (FollowModel.isFollowing a b rows) eqn:Hex.
      * by rewrite (create_duplicate a b rows Hab Hex).
      * rewrite (create_fresh a b rows Hab Hex). cbn [snd].
        unfold FollowModel.isFollowing. rewrite existsb_app. cbn [existsb].
        replace (FollowModel.same_edge c d (a, b)) with false; [by rewrite !orb_false_r|].
        symmetry. apply not_true_is_false. intros E%same_edge_true. congruence.
    + unfold FollowModel.unfollowUser.
      destruct (FollowModel.isFollowing c d rows) eqn:Hex.
      * apply isFollowing_true. apply isFollowing_true in Hex.
        by apply remove_first_other.
      * apply isFollowing_false. apply isFollowing_false in Hex.
        intros Hin%remove_first_elem. done.
Qed.

Lemma count_app (p : ObjectId * ObjectId → bool) (rows rows' : FollowModel.Follows) :
  length (List.filter p (rows ++ rows'))
  = length (List.filter p rows) + length (List.filter p rows').
Proof. by rewrite List.filter_app, length_app. Qed.

(** X12. The counters follow the edges: a followUser(a, b) that creates
    the edge raises countFollowers(b) and countFollowing(a) by one and
    leaves the two counters of every other user as they were. *)
Theorem counters_follow_edges (a b u : ObjectId) (rows : FollowModel.Follows) :
  a ≠ b → FollowModel.isFollowing a b rows = false →
  let rows' := (FollowModel.followUser (Some a) (Some b) rows).2 in
  FollowModel.countFollowers b rows' = S (FollowModel.countFollowers b rows) ∧
  FollowModel.countFollowing a rows' = S (FollowModel.countFollowing a rows) ∧
  (u ≠ b → FollowModel.countFollowers u rows' = FollowModel.countFollowers u rows) ∧
  (u ≠ a → FollowModel.countFollowing u rows' = FollowModel.countFollowing u rows).
Proof.
  intros Hab Hnew. cbv zeta. rewrite (create_fresh a b rows Hab Hnew). cbn [snd].
  unfold FollowModel.countFollowers, FollowModel.countFollowing.
  rewrite !count_app. cbn [List.filter fst snd].
  rewrite !String.eqb_refl. cbn [length]. split_and!; [lia | lia | |].
  - intros Hu. apply String.eqb_neq in Hu. rewrite (String.eqb_sym b u), Hu. cbn. lia.
  - intros Hu. apply String.eqb_neq in Hu. rewrite (String.eqb_sym a u), Hu. cbn. lia.
Qed.

(** X13. Creating an edge and deleting it again is a round trip: on a
    collection that does not hold the edge, followUser(a, b) followed by
    unfollowUser(a, b) reports one deleted document and gives the
    collection back; unfollowUser of an edge that is not stored reports zero
    deleted documents and changes nothing. *)
Theorem follow_document_round_trip (a b : ObjectId) (rows : FollowModel.Follows) :
  a ≠ b → FollowModel.isFollowing a b rows = false →
  FollowModel.unfollowUser a b (FollowModel.followUser (Some a) (Some b) rows).2
  = (1, rows) ∧
  FollowModel.unfollowUser a b rows = (0, rows).
Proof.
  intros Hab Hnew. rewrite (create_fresh a b rows Hab Hnew). cbn [snd].
  unfold FollowModel.unfollowUser. split.
  - by apply remove_first_pushed.
  - by apply remove_first_absent.
Qed.

(** X14. unfollowUser of the model deletes one document at most: the
    reported count is 1 when the edge is stored and 0 otherwise, the number
    of rows for the edge drops by one (it stays 0 at 0), and the number of
    rows for every other pair is unchanged. Unlike the filter of the
    embedded-array controller it does not clear repeated entries. *)
Theorem unfollow_document_deletes_one (a b c d : ObjectId) (rows : FollowModel.Follows) :
  let r := FollowModel.unfollowUser a b rows in
  r.1 = (if FollowModel.isFollowing a b rows then 1 else 0) ∧
  FollowModel.edges a b r.2 = Nat.pred (FollowModel.edges a b rows) ∧
  ((c, d) ≠ (a, b) → FollowModel.edges c d r.2 = FollowModel.edges c d rows).
Proof.
  cbv zeta. unfold FollowModel.unfollowUser. split_and!.
  - apply remove_first_count.
  - rewrite remove_first_edges. by rewrite same_edge_refl.
  - intros Hcd. rewrite remove_first_edges.
    destruct (FollowModel.same_edge c d (a, b)) eqn:E; [|done].
    apply same_edge_true in E. congruence.
Qed.

(** * Further properties of the routers and the application shell *)

Lemma dropSpaces_nil (l : list (list ascii)) :
  dropSpaces l = [] ↔ forallb is_space l = true.
Proof.
  induction l as [|c l IH]; [done|]. cbn [dropSpaces forallb].
  destruct (is_space c); [done|]. cbn. split; discriminate.
Qed.

Lemma dropSpaces_head (l : list (list ascii)) :
  forallb is_space l = false →
  ∃ c rest, dropSpaces l = c :: rest ∧ is_space c = false.
Proof.
  induction l as [|c l IH]; [done|]. cbn [dropSpaces forallb].
  destruct (is_space c) eqn:Hc; [by apply IH|]. intros _. by exists c, l.
Qed.

Lemma dropSpaces_Forall (P : list ascii → Prop) (l : list (list ascii)) :
  Forall P l → Forall P (dropSpaces l).
Proof.
  induction 1 as [|c l Hc Hl IH]; [done|]. cbn [dropSpaces].
  destruct (is_space c); [done | by constructor].
Qed.

(** Every character has at least one byte. *)
Lemma chars_nonempty (l : list ascii) : Forall (λ ch, ch ≠ []) (chars l).
Proof.
  induction l as [|c l IH]; [constructor|]. cbn [chars].
  destruct (chars l) as [|[|d ds] more]; [by repeat constructor | |].
  - by constructor.
  - apply Forall_cons in IH as [_ IH].
    destruct (continuation d); by repeat constructor.
Qed.

Lemma trim_blank (s : string) : String.eqb (trim s) "" = blank s.
Proof.
  unfold trim, blank.
  pose proof (chars_nonempty (list_ascii_of_string s)) as Hne.
  destruct (forallb is_space (chars (list_ascii_of_string s))) eqn:Hb.
  - apply dropSpaces_nil in Hb. by rewrite Hb.
  - apply dropSpaces_Forall in Hne.
    destruct (dropSpaces_head _ Hb) as (c & rest & E & Hc). rewrite E in *.
    apply Forall_rev, dropSpaces_Forall in Hne. cbn [rev] in *.
    destruct (dropSpaces_head (rev rest ++ [c])) as (c' & rest' & E' & _).
    { rewrite forallb_app. cbn [forallb]. rewrite Hc. by rewrite andb_false_r. }
    rewrite E' in *. apply Forall_cons in Hne as [Hc' _].
    cbn [rev]. rewrite concat_app. cbn [concat]. rewrite app_nil_r.
    destruct c' as [|x c']; [done|].
    by destruct (concat (rev rest')).
Qed.

Lemma validateUserId_blank `{Driver} (userId : string) (next : M Outcome) :
  Routes.validateUserId userId next
  = if blank userId then
      res_json 400 [("success", JBool false); ("message", JStr "User ID is required")]
    else next.
Proof.
  unfold Routes.validateUserId. rewrite trim_blank.
  destruct (String.eqb_spec userId "") as [->|_]; [done|]. done.
Qed.

Section Shell.
Context `{Driver}.

(** X15. validateUserId stops exactly the identifiers that consist of
    white space (the empty one included): they are answered 400 "User ID is
    required" and the rest of the chain does not run, so nothing is read or
    written; every other identifier reaches the rest of the chain and the
    run is that of the rest. *)
Theorem validateUserId_stops_blank_ids (userId : string) (next : M Outcome)
    (f : Faults) (users : gmap string User) :
  let r := run (Routes.validateUserId userId next) f users in
  (blank userId = true →
   outcome r = Responded 400 (JObj [("success", JBool false);
                                    ("message", JStr "User ID is required")]) ∧
   trace r = [EvRespond 400] ∧ store r = users) ∧
  (blank userId = false → r = run next f users).
Proof.
  cbv zeta. rewrite validateUserId_blank.
  destruct (blank userId); split; done.
Qed.

(** X16. The mounted list routes always answer, and in one shape: for
    every identifier, collection and failing store operation, GET
    followers and GET following end in a response with status 200, 400, 404
    or 500 whose success flag is true exactly for 200. The mounted follow
    and unfollow routes do the same with 409 added, provided the session
    and transaction calls themselves do not throw. *)
Theorem mounted_routes_answer (f : Faults) (req : Request) (users : gmap string User) :
  well_answered [200; 400; 404; 500]
    (outcome (run (App.mounted (Routes.get_followers (params_userId req))) f users)) ∧
  well_answered [200; 400; 404; 500]
    (outcome (run (App.mounted (Routes.get_following (params_userId req))) f users)) ∧
  (f OpStartSession = false → f OpStartTransaction = false → f OpAbort = false →
   well_answered [200; 400; 404; 409; 500]
     (outcome (run (App.mounted (Routes.post_follow req)) f users)) ∧
   well_answered [200; 400; 404; 409; 500]
     (outcome (run (App.mounted (Routes.delete_follow req)) f users))).
Proof.
  destruct req as [me target]. cbn [params_userId].
  unfold Routes.get_followers, Routes.get_following, Routes.post_follow,
    Routes.delete_follow, App.mounted, App.errorHandler, App.error_status.
  cbn [params_userId]. rewrite !validateUserId_blank.
  assert (Hcodes : ∀ (code : nat) (codes : list nat) (b : bool) (msg : list (string * Json)),
    bool_decide (code ∈ codes) = true → b = Nat.eqb code 200 →
    well_answered codes (Responded code (JObj (("success", JBool b) :: msg)))).
  { intros code codes b msg Hin ->. eexists code, _. split; [done|].
    split; [by apply bool_decide_eq_true in Hin | done]. }
  split_and!.
  - destruct (blank target); exec_all; by apply Hcodes.
  - destruct (blank target); exec_all; by apply Hcodes.
  - intros Hs Ht Ha. split.
    + destruct (blank target); exec; rewrite ?Hs, ?Ht; exec; [by apply Hcodes|].
      repeat (split_step; exec; rewrite ?Ha; exec); by apply Hcodes.
    + destruct (blank target); exec; rewrite ?Hs, ?Ht; exec; [by apply Hcodes|].
      repeat (split_step; exec; rewrite ?Ha; exec); by apply Hcodes.
Qed.

End Shell.

(** * Further properties of the authentication controller *)

Lemma taken_false (u : User) (users : gmap string User) :
  Auth.taken u users = false →
  ∀ j uj, users !! j = Some uj →
    username uj ≠ username u ∧ email uj ≠ email u.
Proof.
  unfold Auth.taken. intros Hnone j uj Hj.
  assert (Hall : ∀ kv, In kv (map_to_list users) →
            (String.eqb (username kv.2) (username u)
             || String.eqb (email kv.2) (email u)) = false).
  { intros kv Hin. apply not_true_is_false. intros Hyes.
    assert (existsb (λ kv, String.eqb (username kv.2) (username u)
                           || String.eqb (email kv.2) (email u))
                    (map_to_list users) = true) as Hex
      by (apply existsb_exists; by exists kv).
    congruence. }
  specialize (Hall (j, uj)). cbn in Hall.
  apply orb_false_iff in Hall as [E1 E2].
  - by split; apply String.eqb_neq.
  - apply list_elem_of_In. by apply elem_of_map_to_list.
Qed.

Ltac no_cookie :=
  let Hin := fresh in
  intros ? ? Hin; cbn [app] in Hin;
  repeat (apply elem_of_cons in Hin as [?|Hin]; [done|]);
  by apply elem_of_nil in Hin.

Section MoreAuth.
Context `{Auth.Bcrypt} `{Auth.Jwt}.

(** Every way a registration can end. *)
Lemma register_runs (body : Auth.RegisterBody) (rnd : Auth.Entropy) (f : Faults)
    (users : gmap string User) :
  let r := run (Auth.RegisterController body rnd) f users in
  (store r = users ∧ status_of (outcome r) ≠ Some 201 ∧
   (∀ n v, EvCookie n v ∉ trace r)) ∨
  (∃ u,
     users !! Auth.fresh_id rnd = None ∧ Auth.taken u users = false ∧
     followers u = [] ∧ following u = [] ∧
     store r = <[Auth.fresh_id rnd := u]> users ∧
     outcome r
     = match Auth.sign (Auth.fresh_id rnd) with
       | Some _ =>
           Responded 201 (JObj [("message", JStr "User registered successfully");
                                ("user", Auth.user_json (mkDoc (Auth.fresh_id rnd) u true []))])
       | None =>
           Responded 500 (JObj [("message", JStr "Registration failed");
                                ("error", JStr "secretOrPrivateKey must have a value")])
       end).
Proof.
  destruct body as [n e p b i]. exec_auth.
  destruct (falsy n || falsy e || falsy p) eqn:Hfalsy; exec_auth.
  { left. split_and!; [done | done | no_cookie]. }
  destruct (f OpFindOne); exec_auth.
  { left. split_and!; [done | done | no_cookie]. }
  destruct (head _) as [kv|]; exec_auth.
  { left. split_and!; [done | done | no_cookie]. }
  destruct (Auth.UserSchema_validate _) eqn:Hvalid; exec_auth.
  { left. split_and!; [done | done | no_cookie]. }
  destruct (f OpInsert); exec_auth.
  { left. split_and!; [done | done | no_cookie]. }
  destruct (users !! Auth.fresh_id rnd) eqn:Hfresh; exec_auth.
  { left. split_and!; [done | done | no_cookie]. }
  destruct (Auth.taken _ users) eqn:Htaken; exec_auth.
  { left. split_and!; [done | done | no_cookie]. }
  right. eexists. split_and!; [done | exact Htaken | done | done | |].
  - destruct (Auth.sign _); by exec_auth.
  - destruct (Auth.sign _); by exec_auth.
Qed.

(** X17. A registration changes the collection by one insertion at most:
    either the collection is unchanged, or exactly one user was added under
    an identifier that was free, with empty followers and following arrays.
    No stored user is modified or removed, and an answer 400 or 409 always
    comes with an unchanged collection. *)
Theorem register_adds_at_most_one (body : Auth.RegisterBody) (rnd : Auth.Entropy)
    (f : Faults) (users : gmap string User) :
  let r := run (Auth.RegisterController body rnd) f users in
  (store r = users ∨
   ∃ u, users !! Auth.fresh_id rnd = None ∧
        store r = <[Auth.fresh_id rnd := u]> users ∧
        followers u = [] ∧ following u = []) ∧
  (∀ j uj, users !! j = Some uj → store r !! j = Some uj) ∧
  (status_of (outcome r) = Some 400 ∨ status_of (outcome r) = Some 409 →
   store r = users).
Proof.
  cbv zeta.
  destruct (register_runs body rnd f users)
    as [(Hstore & _) | (u & Hfree & _ & Hfrs & Hfng & Hstore & Hout)];
    rewrite Hstore.
  - split_and!; [by left | done | done].
  - split_and!.
    + right. by exists u.
    + intros j uj Hj. rewrite lookup_insert_ne; [done|]. congruence.
    + rewrite Hout. destruct (Auth.sign _); intros [?|?]; done.
Qed.

(** X18. Registration keeps identities unique: if no two stored users
    share a username or an email, the same holds after any registration,
    whatever the body and whatever fails. *)
Theorem register_keeps_identities_unique (body : Auth.RegisterBody) (rnd : Auth.Entropy)
    (f : Faults) (users : gmap string User) :
  unique_identities users →
  unique_identities (store (run (Auth.RegisterController body rnd) f users)).
Proof.
  intros Huniq.
  destruct (register_runs body rnd f users)
    as [(-> & _) | (u & Hfree & Htaken & _ & _ & -> & _)]; [done|].
  pose proof (taken_false u users Htaken) as Hnew.
  intros i j ui uj Hi Hj Hsame.
  destruct (decide (Auth.fresh_id rnd = i)) as [<-|Hni],
           (decide (Auth.fresh_id rnd = j)) as [<-|Hnj]; [done | | |].
  - rewrite lookup_insert_eq in Hi. rewrite lookup_insert_ne in Hj by done.
    simplify_eq. destruct (Hnew j uj Hj) as [N1 N2]. destruct Hsame; congruence.
  - rewrite lookup_insert_eq in Hj. rewrite lookup_insert_ne in Hi by done.
    simplify_eq. destruct (Hnew i ui Hi) as [N1 N2]. destruct Hsame; congruence.
  - rewrite lookup_insert_ne in Hi, Hj by done. by apply (Huniq i j ui uj).
Qed.

(** X19. Registration is not all-or-nothing around the token: when
    signing the token throws (no secret configured), every registration
    that got as far as inserting the user answers 500 "Registration failed"
    and the user stays stored; no registration answers 201 and none sets the
    cookie. *)
Theorem register_stores_user_before_token (body : Auth.RegisterBody) (rnd : Auth.Entropy)
    (f : Faults) (users : gmap string User) :
  Auth.sign (Auth.fresh_id rnd) = None →
  let r := run (Auth.RegisterController body rnd) f users in
  status_of (outcome r) ≠ Some 201 ∧
  (store r ≠ users →
   outcome r = Responded 500 (JObj [("message", JStr "Registration failed");
                                    ("error", JStr "secretOrPrivateKey must have a value")]) ∧
   users !! Auth.fresh_id rnd = None ∧ is_Some (store r !! Auth.fresh_id rnd)).
Proof.
  intros Hsign. cbv zeta.
  destruct (register_runs body rnd f users)
    as [(Hstore & Hcode & _) | (u & Hfree & _ & _ & _ & Hstore & Hout)].
  - split; [done|]. intros Hchanged. by destruct Hchanged.
  - rewrite Hsign in Hout. rewrite Hout, Hstore. split; [done|]. intros _.
    split_and!; [done | done |]. rewrite lookup_insert_eq. by eexists.
Qed.

(** X20. The password plays no part in a login: for one identifier and
    any two non-empty passwords the whole run is the same (response, events,
    collection). No login changes the collection and none sets the cookie. *)
Theorem login_ignores_password (identifier : option string) (p p' : string)
    (f : Faults) (users : gmap string User) :
  p ≠ "" → p' ≠ "" →
  let r := run (Auth.LoginController (Auth.mkLoginBody identifier (Some p))) f users in
  let r' := run (Auth.LoginController (Auth.mkLoginBody identifier (Some p'))) f users in
  r = r' ∧ store r = users ∧ (∀ n v, EvCookie n v ∉ trace r).
Proof.
  intros Hp%String.eqb_neq Hp'%String.eqb_neq. cbv zeta.
  assert (Hf : falsy (Some p) = false) by done.
  assert (Hf' : falsy (Some p') = false) by done.
  exec_auth. rewrite !Hf, !Hf', !orb_false_r.
  destruct (falsy identifier); exec_auth; [split_and!; [done | done | no_cookie]|].
  destruct (f OpFindOne); exec_auth; [split_and!; [done | done | no_cookie]|].
  destruct (head _) as [kv|]; exec_auth; rewrite ?doc_password_hydrate; exec_auth;
    (split_and!; [done | done | no_cookie]).
Qed.

(** The validators look at the password only to see that it is present
    and at least six characters long. *)
Lemma validate_password_irrelevant (n e pw pw' b : string) (pr : Profile)
    (frs fng : list ObjectId) :
  (6 ≤ str_length pw)%nat → (6 ≤ str_length pw')%nat →
  Auth.UserSchema_validate (Auth.cast (mkUser n e pw b pr frs fng))
  = Auth.UserSchema_validate (Auth.cast (mkUser n e pw' b pr frs fng)).
Proof.
  intros Hpw Hpw'. unfold Auth.UserSchema_validate, Auth.cast.
  cbn [username email password bio profile followers following].
  assert (E : ∀ s, (6 ≤ str_length s)%nat →
            String.eqb s "" = false ∧ Nat.ltb (str_length s) 6 = false).
  { intros s Hs. split.
    - apply String.eqb_neq. intros ->. cbn in Hs. lia.
    - apply Nat.ltb_ge. lia. }
  destruct (E pw Hpw) as [-> ->], (E pw' Hpw') as [-> ->]. reflexivity.
Qed.

(** X21. The minimum length of the schema is checked on the digest, not
    on the password: for two non-empty passwords whose digests are at least
    six characters long (every bcrypt digest is), registration takes the
    same path, with the same response and the same events, whatever the
    lengths of the passwords themselves. *)
Theorem register_password_length_unchecked (n e b i : option string) (p p' : string)
    (rnd : Auth.Entropy) (f : Faults) (users : gmap string User) :
  p ≠ "" → p' ≠ "" →
  (6 ≤ str_length (Auth.hash p (Auth.genSalt 12 (Auth.controller_salt rnd))))%nat →
  (6 ≤ str_length (Auth.hash p' (Auth.genSalt 12 (Auth.controller_salt rnd))))%nat →
  let r := run (Auth.RegisterController (Auth.mkRegisterBody n e (Some p) b i) rnd) f users in
  let r' := run (Auth.RegisterController (Auth.mkRegisterBody n e (Some p') b i) rnd) f users in
  outcome r = outcome r' ∧ trace r = trace r' ∧
  dom (store r) = dom (store r').
Proof.
  intros Hp%String.eqb_neq Hp'%String.eqb_neq Hlen Hlen'. cbv zeta.
  assert (Hf : falsy (Some p) = false) by done.
  assert (Hf' : falsy (Some p') = false) by done.
  exec_auth. rewrite !Hf, !Hf', !orb_false_r.
  destruct (falsy n || falsy e); exec_auth; [done|].
  destruct (f OpFindOne); exec_auth; [done|].
  destruct (head _) as [kv|]; exec_auth; [done|].
  rewrite !(validate_password_irrelevant _ _ _ _ _ _ _ _ Hlen Hlen').
  destruct (Auth.UserSchema_validate _); exec_auth; [done|].
  destruct (f OpInsert); exec_auth; [done|].
  destruct (users !! Auth.fresh_id rnd); exec_auth; [done|].
  change (Auth.taken (Auth.pre_save true rnd (Auth.cast
            (mkUser (default "" n) (default "" e)
               (Auth.hash (default "" (Some p)) (Auth.genSalt 12 (Auth.controller_salt rnd)))
               (default "" b)
               (mkProfile (if falsy i then default_imageUrl else default default_imageUrl i))
               [] []))) users)
    with (Auth.taken (Auth.pre_save true rnd (Auth.cast
            (mkUser (default "" n) (default "" e)
               (Auth.hash (default "" (Some p')) (Auth.genSalt 12 (Auth.controller_salt rnd)))
               (default "" b)
               (mkProfile (if falsy i then default_imageUrl else default default_imageUrl i))
               [] []))) users).
  destruct (Auth.taken _ users); exec_auth; [done|].
  destruct (Auth.sign _); exec_auth; (split_and!; [done | done |]);
    by rewrite !dom_insert_L.
Qed.

(** X22. [comparePassword] needs the password to have been loaded: on a
    document that a plain [findOne] returned it rejects, whatever the
    candidate; on a document loaded with the password it answers what the
    library's comparison answers. In both cases it leaves the collection,
    the response and the event log alone. *)
Theorem comparePassword_needs_loaded_password (candidatePassword : string) :
  (∀ filter w w' d,
     findOne filter w = (Ok (Some d), w') →
     UserMethods.comparePassword d candidatePassword w'
     = (Throw (JsError "data and hash arguments required"), w')) ∧
  (∀ id u w,
     UserMethods.comparePassword (hydrate true id u) candidatePassword w
     = (Ok (Auth.verify candidatePassword (password u)), w)) ∧
  (∀ d w, (UserMethods.comparePassword d candidatePassword w).2 = w).
Proof.
  split_and!.
  - intros filter w w' d Hd. apply findOne_hides_password in Hd.
    unfold UserMethods.comparePassword. rewrite Hd. reflexivity.
  - intros id u w. reflexivity.
  - intros d w. unfold UserMethods.comparePassword.
    by destruct (doc_password d).
Qed.

End MoreAuth.

Lemma assoc_without_key (name k : string) (kvs : list (string * Json)) :
  assoc k (List.filter (λ kv, negb (String.eqb kv.1 name)) kvs)
  = if String.eqb k name then None else assoc k kvs.
Proof.
  induction kvs as [|[k' v] kvs IH]; [by destruct (String.eqb k name)|].
  cbn [List.filter assoc fst]. destruct (String.eqb k' name) eqn:Ek'; cbn [negb assoc].
  - rewrite IH. apply String.eqb_eq in Ek' as ->.
    rewrite (String.eqb_sym name k). by destruct (String.eqb k name).
  - destruct (String.eqb k' k) eqn:Ek; [|done].
    apply String.eqb_eq in Ek as ->. by rewrite Ek'.
Qed.

(** X23. [toJSON] gives the same object whether or not the query loaded
    the password; that object has no [password] key and keeps every other
    path of the document with its stored value. *)
Theorem toJSON_drops_only_password (plus_password : bool) (id : ObjectId) (u : User) :
  UserMethods.toJSON (hydrate plus_password id u)
  = UserMethods.toJSON (hydrate (negb plus_password) id u) ∧
  ∃ kvs, UserMethods.toJSON (hydrate plus_password id u) = JObj kvs ∧
         assoc "password" kvs = None ∧
         ∀ k, k ≠ "password" → assoc k kvs = assoc k (toObject id u).
Proof.
  split.
  - by destruct plus_password.
  - eexists. split; [reflexivity|]. split; [by destruct plus_password|].
    intros k Hk%String.eqb_neq. unfold UserMethods.docObject.
    destruct (password_selected _); rewrite ?assoc_without_key, Hk; reflexivity.
Qed.

(** ** Instances of the further properties on sample data *)

Import Scenario Samples.

Lemma follow_unfollow_restores_witness :
  let r1 := run (@followUser hex24 (mkRequest idA idB)) no_faults strangers in
  let r2 := run (@unfollowUser hex24 (mkRequest idA idB)) no_faults (store r1) in
  @castObjectId hex24 idA = Some idA ∧ @castObjectId hex24 idB = Some idB ∧
  idA ≠ idB ∧ (idB ∉ following alice) ∧ (idA ∉ followers bob) ∧
  status_of (outcome r1) = Some 200 ∧ status_of (outcome r2) = Some 200 ∧
  restored strangers (store r2).
Proof.
  cbv zeta.
  assert (HA : strangers !! idA = Some alice) by (vm_compute; reflexivity).
  assert (HB : strangers !! idB = Some bob) by (vm_compute; reflexivity).
  exact (conj eq_refl (conj eq_refl (conj idA_idB (conj (nobody idB) (conj (nobody idA)
    (@follow_unfollow_restores hex24 idA idB alice bob strangers
       eq_refl eq_refl idA_idB eq_refl HA HB (nobody idB) (nobody idA))))))).
Defined.

Lemma unfollowUser_idempotent_witness :
  let r1 := run (@unfollowUser hex24 (mkRequest idA idB_upper)) no_faults doubled in
  let r2 := run (@unfollowUser hex24 (mkRequest idA idB_upper)) no_faults (store r1) in
  @castObjectId hex24 idB_upper = Some idB ∧ @isValidObjectId hex24 idB_upper = true ∧
  status_of (outcome r1) = Some 200 ∧ status_of (outcome r2) = Some 200 ∧
  store r2 = store r1.
Proof.
  cbv zeta.
  assert (HA : doubled !! idA = Some (person "alice" [] [idB; idB]))
    by (vm_compute; reflexivity).
  assert (HB : doubled !! idB = Some (person "bob" [idA; idC; idA] []))
    by (vm_compute; reflexivity).
  exact (conj eq_refl (conj eq_refl
    (@unfollowUser_idempotent hex24 idA idB_upper idA idB _ _ doubled
       eq_refl eq_refl eq_refl HA HB))).
Defined.

Lemma list_total_counts_existing_witness :
  let o := outcome (run (@getFollowers hex24 idB_upper) no_faults doubled) in
  status_of o = Some 200 ∧
  total_of o = Some (length (listed "followers" o)) ∧
  (length (listed "followers" o) ≤ 3)%nat.
Proof.
  cbv zeta.
  assert (Hcode : status_of (outcome (run (@getFollowers hex24 idB_upper) no_faults doubled))
                  = Some 200) by (vm_compute; reflexivity).
  assert (HB : doubled !! idB = Some (person "bob" [idA; idC; idA] []))
    by (vm_compute; reflexivity).
  destruct (proj1 (@list_total_counts_existing hex24 no_faults idB_upper doubled) Hcode)
    as (id & u & Hid & Hu & Htotal & _ & Hlen).
  assert (Hcast : @castObjectId hex24 idB_upper = Some idB) by reflexivity.
  rewrite Hcast in Hid. injection Hid as <-.
  rewrite HB in Hu. injection Hu as <-.
  exact (conj Hcode (conj Htotal Hlen)).
Defined.

Lemma follow_shows_in_lists_witness :
  let r := run (@followUser hex24 (mkRequest idA idB_upper)) no_faults strangers in
  idA ≠ idB_upper ∧ (idB_upper ∉ following alice) ∧
  listed "followers" (outcome (run (@getFollowers hex24 idB_upper) no_faults (store r)))
  = listed "followers" (outcome (run (@getFollowers hex24 idB_upper) no_faults strangers))
    ++ [project ["username"; "email"; "profile"] idA alice].
Proof.
  cbv zeta.
  assert (Hne : idA ≠ idB_upper) by discriminate.
  assert (HA : strangers !! idA = Some alice) by (vm_compute; reflexivity).
  assert (HB : strangers !! idB = Some bob) by (vm_compute; reflexivity).
  exact (conj Hne (conj (nobody idB_upper)
    (proj1 (@follow_shows_in_lists hex24 idA idB_upper idA idB alice bob strangers
              eq_refl eq_refl Hne eq_refl eq_refl HA HB (nobody idB_upper))))).
Defined.

Lemma validation_order_witness :
  let r := run (@followUser hex24 (mkRequest idC "42")) no_faults strangers in
  no_faults OpStartSession = false ∧ no_faults OpStartTransaction = false ∧
  @isValidObjectId hex24 "42" = false ∧
  outcome r = Responded 400 (JObj [("success", JBool false);
                                   ("message", JStr "Invalid user ID")]) ∧
  trace r = [EvStartSession; EvStartTransaction; EvRespond 400].
Proof.
  cbv zeta.
  destruct (proj1 (@validation_order hex24 no_faults (mkRequest idC "42") strangers
                     eq_refl eq_refl) eq_refl) as (Hout & _ & Htrace & _).
  exact (conj eq_refl (conj eq_refl (conj eq_refl (conj Hout Htrace)))).
Defined.

Lemma follows0_admissible : admissible follows0.
Proof.
  split; [apply NoDup_singleton|].
  intros a b [= -> ->]%list_elem_of_singleton. apply String.eqb_neq. reflexivity.
Qed.

Lemma follows_stay_admissible_witness :
  admissible follows0 ∧
  admissible (FollowModel.followUser (Some idA) (Some idB) follows0).2 ∧
  admissible (FollowModel.unfollowUser idA idC follows0).2.
Proof.
  exact (conj follows0_admissible
    (follows_stay_admissible (Some idA) (Some idB) idA idC follows0 follows0_admissible)).
Defined.

Lemma follow_document_created_only_when_new_witness :
  FollowModel.followUser (Some idA) None follows0
  = (Throw (ValidationError "Following user is required"), follows0) ∧
  follows0 = follows0.
Proof.
  assert (Hrun : FollowModel.followUser (Some idA) None follows0
                 = (Throw (ValidationError "Following user is required"), follows0))
    by reflexivity.
  exact (conj Hrun
    (eq_sym (follow_document_created_only_when_new (Some idA) None follows0 follows0 _ Hrun))).
Defined.

Lemma isFollowing_tracks_the_edge_witness :
  idA ≠ idB ∧
  FollowModel.isFollowing idA idB
    (FollowModel.followUser (Some idA) (Some idB) follows0).2 = true.
Proof.
  exact (conj idA_idB
    (proj1 (isFollowing_tracks_the_edge idA idB idA idC follows0 idA_idB))).
Defined.

Lemma counters_follow_edges_witness :
  let rows' := (FollowModel.followUser (Some idA) (Some idB) follows0).2 in
  idA ≠ idB ∧ FollowModel.isFollowing idA idB follows0 = false ∧
  FollowModel.countFollowers idB rows' = S (FollowModel.countFollowers idB follows0) ∧
  FollowModel.countFollowing idA rows' = S (FollowModel.countFollowing idA follows0).
Proof.
  cbv zeta.
  destruct (counters_follow_edges idA idB idC follows0 idA_idB eq_refl)
    as (Hfrs & Hfng & _).
  exact (conj idA_idB (conj eq_refl (conj Hfrs Hfng))).
Defined.

Lemma follow_document_round_trip_witness :
  idA ≠ idB ∧ FollowModel.isFollowing idA idB follows0 = false ∧
  FollowModel.unfollowUser idA idB
    (FollowModel.followUser (Some idA) (Some idB) follows0).2 = (1, follows0).
Proof.
  exact (conj idA_idB (conj eq_refl
    (proj1 (follow_document_round_trip idA idB follows0 idA_idB eq_refl)))).
Defined.

Lemma unfollow_document_deletes_one_witness :
  (idA, idB) ≠ (idA, idC) ∧
  FollowModel.edges idA idB (FollowModel.unfollowUser idA idC follows0).2
  = FollowModel.edges idA idB follows0.
Proof.
  assert (Hne : (idA, idB) ≠ (idA, idC)) by (intros [=]).
  exact (conj Hne
    (proj2 (proj2 (unfollow_document_deletes_one idA idC idA idB follows0)) Hne)).
Defined.

Lemma validateUserId_stops_blank_ids_witness :
  let r := run (Routes.validateUserId nbsp (@getFollowers hex24 nbsp)) no_faults strangers in
  blank nbsp = true ∧ blank idA = false ∧
  outcome r = Responded 400 (JObj [("success", JBool false);
                                   ("message", JStr "User ID is required")]) ∧
  trace r = [EvRespond 400] ∧ store r = strangers ∧
  run (Routes.validateUserId idA (@getFollowers hex24 idA)) no_faults strangers
  = run (@getFollowers hex24 idA) no_faults strangers.
Proof.
  cbv zeta.
  destruct (proj1 (@validateUserId_stops_blank_ids hex24 nbsp (@getFollowers hex24 nbsp)
                     no_faults strangers) eq_refl) as (Hout & Htrace & Hstore).
  exact (conj eq_refl (conj eq_refl (conj Hout (conj Htrace (conj Hstore
    (proj2 (@validateUserId_stops_blank_ids hex24 idA (@getFollowers hex24 idA)
              no_faults strangers) eq_refl)))))).
Defined.

Lemma mounted_routes_answer_witness :
  target_save_fails OpStartSession = false ∧
  target_save_fails OpStartTransaction = false ∧
  target_save_fails OpAbort = false ∧
  well_answered [200; 400; 404; 409; 500]
    (outcome (run (App.mounted (@Routes.post_follow hex24 (mkRequest idA idB)))
                  target_save_fails strangers)).
Proof.
  exact (conj eq_refl (conj eq_refl (conj eq_refl
    (proj1 (proj2 (proj2 (@mounted_routes_answer hex24 target_save_fails
                            (mkRequest idA idB) strangers))
              eq_refl eq_refl eq_refl))))).
Defined.

Lemma register_adds_at_most_one_witness :
  let r := run (@Auth.RegisterController marker_bcrypt plain_jwt
                  (carol_registration "hunter22") entropy1) no_faults strangers in
  strangers !! idA = Some alice ∧ store r !! idA = Some alice.
Proof.
  cbv zeta.
  assert (HA : strangers !! idA = Some alice) by (vm_compute; reflexivity).
  exact (conj HA
    (proj1 (proj2 (@register_adds_at_most_one marker_bcrypt plain_jwt
                     (carol_registration "hunter22") entropy1 no_faults strangers))
       idA alice HA)).
Defined.

Lemma strangers_unique : unique_identities strangers.
Proof.
  intros i j ui uj Hi Hj. unfold strangers in Hi, Hj.
  stored Hi; stored Hj; cbn; intros [E|E]; done.
Qed.

Lemma register_keeps_identities_unique_witness :
  let r := run (@Auth.RegisterController marker_bcrypt plain_jwt
                  (carol_registration "hunter22") entropy1) no_faults strangers in
  let r' := run (@Auth.RegisterController marker_bcrypt plain_jwt
                   (Auth.mkRegisterBody (Some "alice") (Some "second@example.com")
                                        (Some "hunter22") None None) entropy1)
                no_faults strangers in
  unique_identities strangers ∧
  (status_of (outcome r) = Some 201 ∧ is_Some (store r !! idC) ∧
   unique_identities (store r)) ∧
  (status_of (outcome r') = Some 409 ∧ store r' !! idC = None ∧
   unique_identities (store r')).
Proof.
  cbv zeta.
  assert (Hcode : status_of (outcome (run (@Auth.RegisterController marker_bcrypt plain_jwt
                     (carol_registration "hunter22") entropy1) no_faults strangers))
                  = Some 201) by (vm_compute; reflexivity).
  assert (Hnew : is_Some (store (run (@Auth.RegisterController marker_bcrypt plain_jwt
                     (carol_registration "hunter22") entropy1) no_faults strangers) !! idC))
    by (vm_compute; eexists; reflexivity).
  assert (Hcode' : status_of (outcome (run (@Auth.RegisterController marker_bcrypt plain_jwt
                     (Auth.mkRegisterBody (Some "alice") (Some "second@example.com")
                                          (Some "hunter22") None None) entropy1)
                     no_faults strangers)) = Some 409) by (vm_compute; reflexivity).
  assert (Hnone : store (run (@Auth.RegisterController marker_bcrypt plain_jwt
                     (Auth.mkRegisterBody (Some "alice") (Some "second@example.com")
                                          (Some "hunter22") None None) entropy1)
                     no_faults strangers) !! idC = None) by (vm_compute; reflexivity).
  exact (conj strangers_unique
    (conj (conj Hcode (conj Hnew
             (@register_keeps_identities_unique marker_bcrypt plain_jwt
                (carol_registration "hunter22") entropy1 no_faults strangers
                strangers_unique)))
          (conj Hcode' (conj Hnone
             (@register_keeps_identities_unique marker_bcrypt plain_jwt
                (Auth.mkRegisterBody (Some "alice") (Some "second@example.com")
                                     (Some "hunter22") None None) entropy1 no_faults
                strangers strangers_unique))))).
Defined.

Lemma register_stores_user_before_token_witness :
  let r := run (@Auth.RegisterController marker_bcrypt no_secret_jwt
                  (carol_registration "hunter22") entropy1) no_faults strangers in
  @Auth.sign no_secret_jwt (Auth.fresh_id entropy1) = None ∧
  store r ≠ strangers ∧
  outcome r = Responded 500 (JObj [("message", JStr "Registration failed");
                                   ("error", JStr "secretOrPrivateKey must have a value")]) ∧
  is_Some (store r !! idC).
Proof.
  cbv zeta.
  assert (Hchanged : store (run (@Auth.RegisterController marker_bcrypt no_secret_jwt
                             (carol_registration "hunter22") entropy1) no_faults strangers)
                     ≠ strangers).
  { intros E. apply (f_equal (λ m, m !! idC)) in E. vm_compute in E. discriminate E. }
  destruct (proj2 (@register_stores_user_before_token marker_bcrypt no_secret_jwt
                     (carol_registration "hunter22") entropy1 no_faults strangers eq_refl)
              Hchanged) as (Hout & _ & Hstored).
  exact (conj eq_refl (conj Hchanged (conj Hout Hstored))).
Defined.

Lemma login_ignores_password_witness :
  "hunter22" ≠ "" ∧ "guess" ≠ "" ∧
  run (@Auth.LoginController marker_bcrypt plain_jwt
         (Auth.mkLoginBody (Some "alice") (Some "hunter22"))) no_faults strangers
  = run (@Auth.LoginController marker_bcrypt plain_jwt
           (Auth.mkLoginBody (Some "alice") (Some "guess"))) no_faults strangers.
Proof.
  assert (H1 : "hunter22" ≠ "") by discriminate.
  assert (H2 : "guess" ≠ "") by discriminate.
  exact (conj H1 (conj H2
    (proj1 (@login_ignores_password marker_bcrypt plain_jwt (Some "alice")
              "hunter22" "guess" no_faults strangers H1 H2)))).
Defined.

Lemma register_password_length_unchecked_witness :
  let r := run (@Auth.RegisterController marker_bcrypt plain_jwt
                  (carol_registration "hunter22") entropy1) no_faults strangers in
  let r' := run (@Auth.RegisterController marker_bcrypt plain_jwt
                   (carol_registration "12345") entropy1) no_faults strangers in
  "hunter22" ≠ "" ∧ "12345" ≠ "" ∧
  outcome r = outcome r' ∧ trace r = trace r'.
Proof.
  cbv zeta.
  assert (H1 : "hunter22" ≠ "") by discriminate.
  assert (H2 : "12345" ≠ "") by discriminate.
  assert (L1 : (6 ≤ String.length (@Auth.hash marker_bcrypt "hunter22"
                     (@Auth.genSalt marker_bcrypt 12 (Auth.controller_salt entropy1))))%nat)
    by (vm_compute; lia).
  assert (L2 : (6 ≤ String.length (@Auth.hash marker_bcrypt "12345"
                     (@Auth.genSalt marker_bcrypt 12 (Auth.controller_salt entropy1))))%nat)
    by (vm_compute; lia).
  destruct (@register_password_length_unchecked marker_bcrypt plain_jwt
              (Some "carol") (Some "carol@example.com") None None "hunter22" "12345"
              entropy1 no_faults strangers H1 H2 L1 L2) as (Hout & Htrace & _).
  exact (conj H1 (conj H2 (conj Hout Htrace))).
Defined.

Lemma comparePassword_needs_loaded_password_witness :
  ∃ d w',
    findOne (λ u, String.eqb (username u) "alice")
            (mkWorld no_faults strangers TxnNone false [])
    = (Ok (Some d), w') ∧
    @UserMethods.comparePassword marker_bcrypt d "hunter22" w'
    = (Throw (JsError "data and hash arguments required"), w').
Proof.
  eexists _, _.
  assert (Hfound : findOne (λ u, String.eqb (username u) "alice")
                     (mkWorld no_faults strangers TxnNone false [])
                   = (Ok (Some (hydrate false idA alice)),
                      mkWorld no_faults strangers TxnNone false [EvFindOne]))
    by (vm_compute; reflexivity).
  exact (conj Hfound
    (proj1 (@comparePassword_needs_loaded_password marker_bcrypt "hunter22") _ _ _ _ Hfound)).
Defined.

Lemma toJSON_drops_only_password_witness :
  "email" ≠ "password" ∧
  ∃ kvs, UserMethods.toJSON (hydrate true idA alice) = JObj kvs ∧
         assoc "password" kvs = None ∧
         assoc "email" kvs = Some (JStr "alice@example.com").
Proof.
  assert (Hne : "email" ≠ "password") by discriminate.
  destruct (proj2 (toJSON_drops_only_password true idA alice))
    as (kvs & Hjson & Hnone & Hkeep).
  refine (conj Hne (ex_intro _ kvs (conj Hjson (conj Hnone _)))).
  exact (Hkeep "email" Hne).
Defined.
